(** * fugue/_utils/io.py: path parsing, file enumeration and codec dispatch

    A shallow embedding of [src/fugue/_utils/io.py].  Python strings are
    [string] (ASCII), option bags ([**kwargs], [ParamDict]) are
    [gmap string pyval], exceptions are values of [exn] carried by
    [Result], and the file system together with pandas are collaborators
    acting on an abstract world. *)

From Stdlib Require Import ZArith Ascii String DecimalString.
From stdpp Require Import base option list strings gmap fin_maps.

Local Open Scope Z_scope.
Local Open Scope nat_scope.

(** ** Exceptions and results *)

(** The exception classes that [io.py] raises itself or meets in the
    calls it makes; the argument is the message (or the key or name).
    The specification names them by their role: UnsupportedFormat and
    UnsupportedOption are [NotImplementedError], InvalidPath is the
    [AssertionError] of [assert_no_glob], AlreadyExists is
    [FileExistsError] and MissingColumns is [InvalidOperationError]. *)
Inductive exn : Type :=
| NotImplementedError (msg : string)
| AssertionError (msg : string)
| FileExistsError (msg : string)
| InvalidOperationError (msg : string)
| KeyError (key : string)
| TypeError (msg : string)
| ValueError (msg : string)
| UnboundLocalError (name : string)
| PyException (msg : string)
| CollaboratorError (msg : string).

Inductive Result (A : Type) : Type :=
| Ok (a : A)
| Raise (e : exn).
Arguments Ok {A} a.
Arguments Raise {A} e.

#[global] Instance Result_ret : MRet Result := fun _ a => Ok a.

#[global] Instance Result_bind : MBind Result := fun _ _ k r =>
  match r with
  | Ok a => k a
  | Raise e => Raise e
  end.

#[global] Instance Result_fmap : FMap Result := fun _ _ f r =>
  match r with
  | Ok a => Ok (f a)
  | Raise e => Raise e
  end.

(** Python's list comprehension [[f(x) for x in xs]] over a fallible [f]:
    the first exception ends it. *)
Fixpoint comprehension {A B} (f : A → Result B) (xs : list A) : Result (list B) :=
  match xs with
  | [] => Ok []
  | x :: xs' => y ← f x; ys ← comprehension f xs'; Ok (y :: ys)
  end.

(** [table[key]] for a dict written as its list of items *)
Definition table_getitem {A} (table : list (string * A)) (key : string) : Result A :=
  match List.find (fun kv => String.eqb key (fst kv)) table with
  | Some (_, v) => Ok v
  | None => Raise (KeyError key)
  end.

(** triad.utils.assertion.assert_or_throw, for an exception instance. *)
Definition assert_or_throw (bool_exp : bool) (exception : exn) : Result unit :=
  if bool_exp then Ok tt else Raise exception.

(** ** The Python standard library functions the parser calls *)

Module Py.

(** [s[n:]] *)
Fixpoint slice_from (n : nat) (s : string) : string :=
  match n, s with
  | O, _ => s
  | S n', String _ s' => slice_from n' s'
  | S _, EmptyString => EmptyString
  end.

(** [s[:n]] *)
Fixpoint slice_to (n : nat) (s : string) : string :=
  match n, s with
  | O, _ => EmptyString
  | S n', String c s' => String c (slice_to n' s')
  | S _, EmptyString => EmptyString
  end.

Definition len : string → nat := String.length.

Definition startswith (s p : string) : bool := String.prefix p s.

(** [s.endswith(k)] *)
Definition endswith (s k : string) : bool :=
  (len k <=? len s) && String.eqb (slice_from (len s - len k) s) k.

(** [c in s] for a character [c] *)
Fixpoint contains (c : ascii) (s : string) : bool :=
  match s with
  | EmptyString => false
  | String d s' => Ascii.eqb c d || contains c s'
  end.

(** [s.find(c)], [None] standing for -1 *)
Fixpoint find (c : ascii) (s : string) : option nat :=
  match s with
  | EmptyString => None
  | String d s' => if Ascii.eqb c d then Some O else S <$> find c s'
  end.

(** [s.rfind(c)] *)
Fixpoint rfind (c : ascii) (s : string) : option nat :=
  match s with
  | EmptyString => None
  | String d s' =>
      match rfind c s' with
      | Some i => Some (S i)
      | None => if Ascii.eqb c d then Some O else None
      end
  end.

(** [s.split(c, 1)] when [c in s]: the parts around the first [c]. *)
Fixpoint split1 (c : ascii) (s : string) : string * string :=
  match s with
  | EmptyString => (EmptyString, EmptyString)
  | String d s' =>
      if Ascii.eqb c d then (EmptyString, s')
      else let '(a, b) := split1 c s' in (String d a, b)
  end.

(** [s.split(c)] *)
Fixpoint split (c : ascii) (s : string) : list string :=
  match s with
  | EmptyString => [EmptyString]
  | String d s' =>
      if Ascii.eqb c d then EmptyString :: split c s'
      else match split c s' with
           | w :: ws => String d w :: ws
           | [] => [String d EmptyString]
           end
  end.

(** [s.lstrip(c)] *)
Fixpoint lstrip (c : ascii) (s : string) : string :=
  match s with
  | String d s' => if Ascii.eqb c d then lstrip c s' else s
  | EmptyString => EmptyString
  end.

Definition lower_char (c : ascii) : ascii :=
  let n := nat_of_ascii c in
  if (65 <=? n) && (n <=? 90) then ascii_of_nat (n + 32) else c.

(** [s.lower()] on ASCII text *)
Fixpoint lower (s : string) : string :=
  match s with
  | EmptyString => EmptyString
  | String c s' => String (lower_char c) (lower s')
  end.

(** [sub in s] for strings *)
Definition str_in (sub s : string) : bool :=
  match String.index 0 sub s with Some _ => true | None => false end.

Definition all_chars (p : ascii → bool) (s : string) : bool :=
  forallb p (list_ascii_of_string s).

Definition any_chars (p : ascii → bool) (s : string) : bool :=
  existsb p (list_ascii_of_string s).

Definition join (ws : list string) : string :=
  fold_right String.append EmptyString ws.

(** *** urllib.parse (CPython 3.8, str input) *)

Record ParseResult : Type := mkParseResult {
  scheme : string;
  netloc : string;
  path : string;
  params : string;
  query : string;
  fragment : string
}.

Definition uses_params : list string :=
  [""; "ftp"; "hdl"; "prospero"; "http"; "imap"; "https"; "shttp"; "rtsp";
   "rtspu"; "sip"; "sips"; "mms"; "sftp"; "tel"].

Definition uses_netloc : list string :=
  [""; "ftp"; "http"; "gopher"; "nntp"; "telnet"; "imap"; "wais"; "file";
   "mms"; "https"; "shttp"; "snews"; "prospero"; "rtsp"; "rtspu"; "rsync";
   "svn"; "svn+ssh"; "sftp"; "nfs"; "git"; "git+ssh"; "ws"; "wss"].

Definition scheme_chars : string :=
  "abcdefghijklmnopqrstuvwxyzABCDEFGHIJKLMNOPQRSTUVWXYZ0123456789+-.".

Definition digits : string := "0123456789".

Definition str_mem (s : string) (l : list string) : bool :=
  existsb (String.eqb s) l.

(** [_splitnetloc(url, 2)]: the text between the leading [//] and the
    first of [/], [?], [#]; and the rest from that delimiter on. *)
Fixpoint until_delim (s : string) : string * string :=
  match s with
  | EmptyString => (EmptyString, EmptyString)
  | String c s' =>
      if contains c "/?#" then (EmptyString, s)
      else let '(a, b) := until_delim s' in (String c a, b)
  end.

Definition _splitnetloc (url : string) : string * string :=
  until_delim (slice_from 2 url).

(** The part of [urlsplit] after the scheme has been taken off. *)
Definition urlsplit_rest (scheme url : string) : Result ParseResult :=
  nu ← (if String.eqb (slice_to 2 url) "//" then
          let '(nl, u) := _splitnetloc url in
          if (contains "[" nl && negb (contains "]" nl))
             || (contains "]" nl && negb (contains "[" nl))
          then Raise (ValueError "Invalid IPv6 URL")
          else Ok (nl, u)
        else Ok (EmptyString, url));
  let '(nl, url) := nu in
  let '(url, frag) :=
    if contains "#" url then split1 "#" url else (url, EmptyString) in
  let '(url, q) :=
    if contains "?" url then split1 "?" url else (url, EmptyString) in
  Ok (mkParseResult scheme nl url EmptyString q frag).

Definition urlsplit (url : string) : Result ParseResult :=
  match find ":" url with
  | Some (S i') =>
      let i := S i' in
      if String.eqb (slice_to i url) "http" then
        urlsplit_rest "http" (slice_from (S i) url)
      else if all_chars (fun c => contains c scheme_chars) (slice_to i url) then
        let rest := slice_from (S i) url in
        if String.eqb rest "" || any_chars (fun c => negb (contains c digits)) rest
        then urlsplit_rest (lower (slice_to i url)) rest
        else urlsplit_rest "" url
      else urlsplit_rest "" url
  | _ => urlsplit_rest "" url
  end.

Definition _splitparams (url : string) : string * string :=
  if contains "/" url then
    match rfind "/" url with
    | Some r =>
        match find ";" (slice_from r url) with
        | Some j => (slice_to (r + j) url, slice_from (S (r + j)) url)
        | None => (url, EmptyString)
        end
    | None => (url, EmptyString)
    end
  else
    match find ";" url with
    | Some i => (slice_to i url, slice_from (S i) url)
    | None => (url, EmptyString)
    end.

Definition urlparse (url : string) : Result ParseResult :=
  r ← urlsplit url;
  if str_mem (scheme r) uses_params && contains ";" (path r) then
    let '(u, p) := _splitparams (path r) in
    Ok (mkParseResult (scheme r) (netloc r) u p (query r) (fragment r))
  else Ok r.

Definition nonempty (s : string) : bool := negb (String.eqb s "").

Definition urlunsplit (scheme netloc url query fragment : string) : string :=
  let url :=
    if nonempty netloc
       || (nonempty scheme && str_mem scheme uses_netloc
           && negb (String.eqb (slice_to 2 url) "//"))
    then
      let url :=
        if nonempty url && negb (String.eqb (slice_to 1 url) "/")
        then "/" +:+ url else url in
      "//" +:+ netloc +:+ url
    else url in
  let url := if nonempty scheme then scheme +:+ ":" +:+ url else url in
  let url := if nonempty query then url +:+ "?" +:+ query else url in
  if nonempty fragment then url +:+ "#" +:+ fragment else url.

(** [ParseResult.geturl()], that is [urlunparse] *)
Definition geturl (r : ParseResult) : string :=
  let url :=
    if nonempty (params r) then path r +:+ ";" +:+ params r else path r in
  urlunsplit (scheme r) (netloc r) url (query r) (fragment r).

(** *** os.path (posixpath) *)

Definition os_path_join (a b : string) : string :=
  if startswith b "/" then b
  else if String.eqb a "" || endswith a "/" then a +:+ b
  else a +:+ "/" +:+ b.

Definition os_path_basename (p : string) : string :=
  match rfind "/" p with
  | Some i => slice_from (S i) p
  | None => p
  end.

(** *** pathlib.PurePosixPath *)

(** [Path(s).name]: the last component that is neither empty nor [.]
    ([""] when there is none). *)
Definition path_name (s : string) : string :=
  List.last
    (List.filter (fun x => nonempty x && negb (String.eqb x ".")) (split "/" s))
    EmptyString.

(** [Path(s).suffixes] *)
Definition suffixes (s : string) : list string :=
  let name := path_name s in
  if endswith name "." then []
  else List.map (fun suffix => "." +:+ suffix) (List.tl (split "." (lstrip "." name))).

End Py.

(** ** The format registry: [_FORMAT_MAP] *)

(** A dict iterated with [.items()]: the declaration order is kept. *)
Definition _FORMAT_MAP : list (string * string) :=
  [(".csv", "csv");
   (".csv.gz", "csv");
   (".parquet", "parquet");
   (".json", "json");
   (".json.gz", "json");
   (".avro", "avro");
   (".avro.gz", "avro")].

Definition _FORMAT_MAP_values : list string := snd <$> _FORMAT_MAP.

(** ** [class FileParser] *)

Module FileParser.

Record t : Type := mk {
  _uri : Py.ParseResult;
  _glob_pattern : string;
  _path : string;
  _format : string
}.

Definition is_sep (c : ascii) : bool := Py.contains c "/\".
Definition is_glob (c : ascii) : bool := Py.contains c "*?".

(** The scanning loop of [__init__]: [s] is [path[i:]]; the result is
    the final [(last, has_glob)]. *)
Fixpoint scan (s : string) (i last : nat) : nat * bool :=
  match s with
  | EmptyString => (last, false)
  | String c s' =>
      let last := if is_sep c then i else last in
      if is_glob c then (last, true) else scan s' (S i) last
  end.

(** [self.suffix] as a function of [self.path] *)
Definition suffix_of (path : string) : string :=
  Py.join (Py.suffixes (Py.lower path)).

(** The second half of [__init__]: the format from the hint or from the
    suffix. *)
Definition resolve_format (path : string) (format_hint : option string)
  : Result string :=
  match format_hint with
  | None | Some EmptyString =>
      match List.find (fun kv => Py.endswith (suffix_of path) (fst kv)) _FORMAT_MAP with
      | Some (_, v) => Ok v
      | None => Raise (NotImplementedError (suffix_of path +:+ " is not supported"))
      end
  | Some hint =>
      _ ← assert_or_throw (Py.str_mem hint _FORMAT_MAP_values)
            (NotImplementedError (hint +:+ " is not supported"));
      Ok hint
  end.

(** The first half of [__init__]: [(self._uri, self._glob_pattern,
    self._path)]. *)
Definition locate (path : string) : Result (Py.ParseResult * string * string) :=
  let '(last, has_glob) := scan path 0 (Py.len path) in
  if negb has_glob then
    uri ← Py.urlparse path;
    Ok (uri, EmptyString, Py.path uri)
  else
    uri ← Py.urlparse (Py.slice_to last path);
    let glob_pattern := Py.slice_from (last + 1) path in
    Ok (uri, glob_pattern, Py.os_path_join (Py.path uri) glob_pattern).

Definition __init__ (path : string) (format_hint : option string) : Result t :=
  '(uri, glob_pattern, p) ← locate path;
  format ← resolve_format p format_hint;
  Ok (mk uri glob_pattern p format).

Definition glob_pattern (self : t) : string := _glob_pattern self.
Definition uri (self : t) : string := Py.geturl (_uri self).
Definition scheme (self : t) : string := Py.scheme (_uri self).
Definition path (self : t) : string := _path self.
Definition suffix (self : t) : string := suffix_of (path self).
Definition file_format (self : t) : string := _format self.

(** [assert_or_throw] is given a message here, which it raises as an
    [AssertionError]: the spec's InvalidPath. *)
Definition assert_no_glob (self : t) : Result t :=
  _ ← assert_or_throw (String.eqb (glob_pattern self) "")
        (AssertionError (path self +:+ " has glob pattern"));
  Ok self.

End FileParser.

(** ** Python values and option bags *)

(** The values that travel as [columns] and in [**kwargs]. [VObj] is any
    other object (a type, a callable, a schema object), known by its
    [str()]; it is truthy and is not a container. *)
#[warnings="-register-all"]
Inductive pyval : Type :=
| VNone
| VBool (b : bool)
| VInt (z : Z)
| VStr (s : string)
| VList (l : list pyval)
| VDict (d : list (string * pyval))
| VObj (repr : string).

(** [repr(v)]; for strings, the common case without quotes or escapes. *)
Fixpoint py_repr (v : pyval) : string :=
  match v with
  | VNone => "None"
  | VBool true => "True"
  | VBool false => "False"
  | VInt z => NilZero.string_of_int (Z.to_int z)
  | VStr s => "'" +:+ s +:+ "'"
  | VList l =>
      "[" +:+ (fix items (l : list pyval) : string :=
                 match l with
                 | [] => ""
                 | [x] => py_repr x
                 | x :: l' => py_repr x +:+ ", " +:+ items l'
                 end) l +:+ "]"
  | VDict d =>
      "{" +:+ (fix items (d : list (string * pyval)) : string :=
                 match d with
                 | [] => ""
                 | [(k, x)] => "'" +:+ k +:+ "': " +:+ py_repr x
                 | (k, x) :: d' => "'" +:+ k +:+ "': " +:+ py_repr x +:+ ", " +:+ items d'
                 end) d +:+ "}"
  | VObj r => r
  end.

(** [str(v)] *)
Definition py_str (v : pyval) : string :=
  match v with
  | VStr s => s
  | _ => py_repr v
  end.

(** [type(v).__name__] *)
Definition py_type_name (v : pyval) : string :=
  match v with
  | VNone => "NoneType"
  | VBool _ => "bool"
  | VInt _ => "int"
  | VStr _ => "str"
  | VList _ => "list"
  | VDict _ => "dict"
  | VObj _ => "object"
  end.

(** Truth value testing, as in [if v:] *)
Definition truthy (v : pyval) : bool :=
  match v with
  | VNone => false
  | VBool b => b
  | VInt z => negb (Z.eqb z 0)
  | VStr s => Py.nonempty s
  | VList l => match l with [] => false | _ => true end
  | VDict d => match d with [] => false | _ => true end
  | VObj _ => true
  end.

Definition is_None (v : pyval) : bool :=
  match v with VNone => true | _ => false end.

Definition is_str (s : string) (v : pyval) : bool :=
  match v with VStr s' => String.eqb s s' | _ => false end.

(** [s in v] for a string [s]: substring test on a string, element test on
    a list, key test on a dict; any other [v] is not iterable. *)
Definition py_in (s : string) (v : pyval) : Result bool :=
  match v with
  | VStr t => Ok (Py.str_in s t)
  | VList l => Ok (existsb (is_str s) l)
  | VDict d => Ok (existsb (fun kv => String.eqb s (fst kv)) d)
  | _ => Raise (TypeError ("argument of type '" +:+ py_type_name v +:+ "' is not iterable"))
  end.

Abbreviation kwargs_t := (gmap string pyval).

(** [{**defaults, **kwargs}]: on a common key the later entry wins. *)
Definition dict_merge (defaults kwargs : kwargs_t) : kwargs_t := kwargs ∪ defaults.

Module ParamDict.

(** [key in kw] *)
Definition contains (kw : kwargs_t) (key : string) : bool :=
  bool_decide (is_Some (kw !! key)).

(** [kw[key]] *)
Definition getitem (kw : kwargs_t) (key : string) : Result pyval :=
  match kw !! key with
  | Some v => Ok v
  | None => Raise (KeyError key)
  end.

(** [del kw[key]] *)
Definition delitem (kw : kwargs_t) (key : string) : Result kwargs_t :=
  match kw !! key with
  | Some _ => Ok (delete key kw)
  | None => Raise (KeyError key)
  end.

(** triad's [to_bool], reached from [as_type(value, bool)] *)
Definition to_bool (v : pyval) : Result bool :=
  match v with
  | VBool b => Ok b
  | VNone => Raise (TypeError "None can't convert to bool")
  | _ =>
      let o := Py.lower (py_str v) in
      if Py.str_mem o ["true"; "yes"; "1"] then Ok true
      else if Py.str_mem o ["false"; "no"; "0"] then Ok false
      else Raise (TypeError (o +:+ " can't convert to bool"))
  end.

(** [kw.get(key, default)] for a [bool] default: the stored value is
    converted to the type of the default. *)
Definition get_bool (kw : kwargs_t) (key : string) (default : bool) : Result bool :=
  match kw !! key with
  | Some v => to_bool v
  | None => Ok default
  end.

End ParamDict.

(** ** Collaborators

    The file system, pandas, pandavro/fastavro, triad's [Schema] and
    fugue's dataframe classes are used through their interfaces only.
    Calls that change the outside world return the new world together
    with the exception they raised, if any. *)

Record FileSystem (World : Type) : Type := mkFileSystem {
  fs_exists : World → string → bool;
  fs_remove : World → string → option exn * World;
  fs_removetree : World → string → option exn * World;
  fs_isdir : World → string → bool;
  (** [fs.opendir(uri).glob(pattern)]: the [.path] of every match *)
  fs_glob : World → string → string → Result (list string);
  (** [fs.filterdir(uri, files=[pattern])]: the [.name] of every entry *)
  fs_filterdir : World → string → list string → Result (list string)
}.
Arguments fs_exists {World}.
Arguments fs_remove {World}.
Arguments fs_removetree {World}.
Arguments fs_isdir {World}.
Arguments fs_glob {World}.
Arguments fs_filterdir {World}.

Record Collaborators : Type := mkCollaborators {
  World : Type;
  (** [pd.DataFrame] *)
  DataFrame : Type;
  (** [triad.collections.schema.Schema] *)
  Schema : Type;
  (** [fugue.dataframe.LocalDataFrame] and its subclasses *)
  LocalDataFrame : Type;
  (** [FileSystem()] *)
  FileSystem_default : FileSystem World;
  (** [Schema(columns)] and [schema.names] *)
  Schema_new : pyval → Result Schema;
  Schema_names : Schema → list string;
  (** [PandasDataFrame(pdf, schema)], [df.as_pandas()], [df.schema.pa_schema] *)
  PandasDataFrame : DataFrame → option Schema → Result LocalDataFrame;
  as_pandas : LocalDataFrame → DataFrame;
  pa_schema : LocalDataFrame → pyval;
  (** [pd.read_csv(uri, **options)] and its siblings *)
  pd_read_csv : World → string → kwargs_t → Result DataFrame;
  pd_read_parquet : World → string → kwargs_t → Result DataFrame;
  pd_read_json : World → string → kwargs_t → Result DataFrame;
  (** [open(uri, "rb")], [fastavro.reader], [list] and
      [pd.DataFrame.from_records] in one step *)
  avro_read_records : World → string → Result DataFrame;
  (** [pdf[columns]] and [pdf.reset_index(drop=True)] *)
  pdf_getitem : DataFrame → pyval → Result DataFrame;
  pdf_reset_index : DataFrame → DataFrame;
  (** [pd.concat(dfs)] for a list that is not empty *)
  pd_concat_nonempty : list DataFrame → Result DataFrame;
  (** [pdf.to_csv(uri, **options)] and its siblings *)
  pdf_to_csv : World → DataFrame → string → kwargs_t → option exn * World;
  pdf_to_parquet : World → DataFrame → string → kwargs_t → option exn * World;
  pdf_to_json : World → DataFrame → string → kwargs_t → option exn * World;
  (** [pdx.to_avro(uri, df, **options)] *)
  pdx_to_avro : World → string → LocalDataFrame → kwargs_t → option exn * World
}.

(** ** Effects: the world and a trace of the calls made on it *)

Inductive Event : Type :=
| EvExists (uri : string)
| EvRemove (uri : string)
| EvRemoveTree (uri : string)
| EvWrite (writer : string) (uri : string) (options : kwargs_t).

Section Effects.
Context (E : Collaborators).

Record State : Type := mkState {
  world : World E;
  trace : list Event
}.

Definition M (A : Type) : Type := State → Result A * State.

Definition run {A} (m : M A) (w : World E) : Result A * State :=
  m (mkState w []).

#[global] Instance M_ret : MRet M := fun _ a st => (Ok a, st).

#[global] Instance M_bind : MBind M := fun _ _ k m st =>
  match m st with
  | (Ok a, st') => k a st'
  | (Raise e, st') => (Raise e, st')
  end.

(** A fallible step that leaves the world alone *)
Definition lift {A} (r : Result A) : M A := fun st => (r, st).

(** [try: m except Exception: handler] *)
Definition try_except (m handler : M unit) : M unit := fun st =>
  match m st with
  | (Ok a, st') => (Ok a, st')
  | (Raise _, st') => handler st'
  end.

Definition query (ev : Event) (f : World E → bool) : M bool := fun st =>
  (Ok (f (world st)), mkState (world st) (trace st ++ [ev])).

Definition command (ev : Event) (f : World E → option exn * World E) : M unit :=
  fun st =>
    let '(r, w') := f (world st) in
    (match r with Some e => Raise e | None => Ok tt end,
     mkState w' (trace st ++ [ev])).

End Effects.

Arguments world {E}.
Arguments trace {E}.
Arguments lift {E A}.
Arguments try_except {E}.
Arguments query {E}.
Arguments command {E}.
Arguments run {E A}.

(** ** Savers *)

Section Save.
Context (E : Collaborators).

Definition _save_parquet (df : LocalDataFrame E) (p : FileParser.t)
    (kwargs : kwargs_t) : M E unit :=
  let options :=
    dict_merge {[ "engine" := VStr "pyarrow"; "schema" := pa_schema E df ]} kwargs in
  command (EvWrite "to_parquet" (FileParser.uri p) options)
    (fun w => pdf_to_parquet E w (as_pandas E df) (FileParser.uri p) options).

Definition _save_csv (df : LocalDataFrame E) (p : FileParser.t)
    (kwargs : kwargs_t) : M E unit :=
  let options :=
    dict_merge {[ "index" := VBool false; "header" := VBool false ]} kwargs in
  command (EvWrite "to_csv" (FileParser.uri p) options)
    (fun w => pdf_to_csv E w (as_pandas E df) (FileParser.uri p) options).

Definition _save_json (df : LocalDataFrame E) (p : FileParser.t)
    (kwargs : kwargs_t) : M E unit :=
  command (EvWrite "to_json" (FileParser.uri p) kwargs)
    (fun w => pdf_to_json E w (as_pandas E df) (FileParser.uri p) kwargs).

Definition _convert_pyarrow_to_avro_schema (columns : pyval) : pyval := columns.

(** Reading a local variable that may not have been assigned *)
Definition local_var (name : string) (v : option pyval) : Result pyval :=
  match v with
  | Some x => Ok x
  | None => Raise (UnboundLocalError name)
  end.

(** The body of [_save_avro] up to the call of [pdx.to_avro]: the keyword
    arguments of that call.  The locals [schema], [append] and
    [times_as_micros] are [None] here while they are unassigned. *)
Definition _save_avro_options (columns : pyval) (kwargs : kwargs_t)
  : Result kwargs_t :=
  let kw := kwargs in
  '(schema, kw) ←
    (if ParamDict.contains kw "schema" then
       schema ← ParamDict.getitem kw "schema";
       schema ←
         (if is_None schema then
            if negb (is_None columns)
            then Ok (_convert_pyarrow_to_avro_schema columns)
            else Ok schema
          else if truthy columns
            then Raise (PyException "set columns to None when schema is provided")
            else Ok schema);
       kw ← ParamDict.delitem kw "infer_schema";
       Ok (Some schema, kw)
     else Ok (None, kw));
  kw ←
    (if ParamDict.contains kw "infer_schema" then
       infer_schema ← ParamDict.getitem kw "infer_schema";
       clash ←
         (if truthy infer_schema
          then s ← local_var "schema" schema; Ok (negb (is_None s))
          else Ok false);
       if (clash : bool)
       then Raise (PyException "set infer_schema to False when schema is provided")
       else ParamDict.delitem kw "infer_schema"
     else Ok kw);
  '(append, kw) ←
    (v ← ParamDict.getitem kw "append";
     found ← py_in "append" v;
     if (found : bool) then
       append ← ParamDict.getitem kw "append";
       kw ← ParamDict.delitem kw "append";
       Ok (Some append, kw)
     else Ok (None, kw));
  '(times_as_micros, kw) ←
    (if ParamDict.contains kw "times_as_micros" then
       t ← ParamDict.getitem kw "times_as_micros";
       kw ← ParamDict.delitem kw "times_as_micros";
       Ok (Some t, kw)
     else Ok (None, kw));
  schema ← local_var "schema" schema;
  append ← local_var "append" append;
  times_as_micros ← local_var "times_as_micros" times_as_micros;
  match List.find (ParamDict.contains kw) ["schema"; "append"; "times_as_micros"] with
  | Some k =>
      Raise (TypeError ("to_avro() got multiple values for keyword argument '"
                        +:+ k +:+ "'"))
  | None =>
      Ok (<["schema" := schema]> (<["append" := append]>
           (<["times_as_micros" := times_as_micros]> kw)))
  end.

Definition _save_avro (df : LocalDataFrame E) (p : FileParser.t)
    (columns : pyval) (kwargs : kwargs_t) : M E unit :=
  options ← lift (_save_avro_options columns kwargs);
  command (EvWrite "to_avro" (FileParser.uri p) options)
    (fun w => pdx_to_avro E w (FileParser.uri p) df options).

(** The call [f(df, p, **kwargs)] of a [def f(df, p, **kwargs)]: a key
    of [kwargs] that names a positional parameter is refused. *)
Definition call_df_p (name : string)
    (f : LocalDataFrame E → FileParser.t → kwargs_t → M E unit)
    (df : LocalDataFrame E) (p : FileParser.t) (kwargs : kwargs_t) : M E unit :=
  match List.find (ParamDict.contains kwargs) ["df"; "p"] with
  | Some k =>
      lift (Raise (TypeError (name +:+ "() got multiple values for argument '"
                              +:+ k +:+ "'")))
  | None => f df p kwargs
  end.

(** The same call for [def _save_avro(df, p, columns=None, **kwargs)]. *)
Definition call_save_avro (df : LocalDataFrame E) (p : FileParser.t)
    (kwargs : kwargs_t) : M E unit :=
  call_df_p "_save_avro"
    (fun df p kwargs =>
       _save_avro df p (default VNone (kwargs !! "columns")) (delete "columns" kwargs))
    df p kwargs.

Definition _FORMAT_SAVE
  : list (string * (LocalDataFrame E → FileParser.t → kwargs_t → M E unit)) :=
  [("csv", call_df_p "_save_csv" _save_csv);
   ("parquet", call_df_p "_save_parquet" _save_parquet);
   ("json", call_df_p "_save_json" _save_json);
   ("avro", call_save_avro)].

Definition save_df (df : LocalDataFrame E) (uri : string)
    (format_hint : option string) (mode : string)
    (fs : option (FileSystem (World E))) (kwargs : kwargs_t) : M E unit :=
  _ ← lift (assert_or_throw (Py.str_mem mode ["overwrite"; "error"])
              (NotImplementedError (mode +:+ " is not supported")));
  p ← lift (FileParser.__init__ uri format_hint ≫= FileParser.assert_no_glob);
  let fs := default (FileSystem_default E) fs in
  there ← query (EvExists uri) (fun w => fs_exists fs w uri);
  _ ← (if (there : bool) then
         _ ← lift (assert_or_throw (String.eqb mode "overwrite") (FileExistsError uri));
         try_except
           (command (EvRemove uri) (fun w => fs_remove fs w uri))
           (try_except
              (command (EvRemoveTree uri) (fun w => fs_removetree fs w uri))
              (mret tt))
       else mret tt);
  saver ← lift (table_getitem _FORMAT_SAVE (FileParser.file_format p));
  saver df p kwargs.

End Save.

(** ** Loaders *)

Section Load.
Context (E : Collaborators).

(** What a loader returns: [(pdf, None)] or [(pdf, schema)] *)
Definition Loaded : Type := DataFrame E * option (Schema E).

(** [f(uri, k=v, ..., **splat)]: a keyword given both ways is refused. *)
Definition keyword_args (name : string) (explicit : list (string * pyval))
    (splat : kwargs_t) : Result kwargs_t :=
  match List.find (ParamDict.contains splat) (fst <$> explicit) with
  | Some k =>
      Raise (TypeError (name +:+ "() got multiple values for keyword argument '"
                        +:+ k +:+ "'"))
  | None => Ok (splat ∪ list_to_map explicit)
  end.

Definition names_list (schema : Schema E) : pyval :=
  VList (VStr <$> Schema_names E schema).

(** The selection that ends [_load_csv] (header case), [_load_json] and
    [_load_avro]. *)
Definition select_columns (pdf : DataFrame E) (columns : pyval) : Result Loaded :=
  match columns with
  | VNone => Ok (pdf, None)
  | VList _ => sel ← pdf_getitem E pdf columns; Ok (sel, None)
  | _ =>
      schema ← Schema_new E columns;
      sel ← pdf_getitem E pdf (names_list schema);
      Ok (sel, Some schema)
  end.

Definition _load_parquet (w : World E) (p : FileParser.t) (columns : pyval)
    (kwargs : kwargs_t) : Result Loaded :=
  let base := dict_merge {[ "engine" := VStr "pyarrow" ]} kwargs in
  match columns with
  | VNone =>
      pdf ← pd_read_parquet E w (FileParser.uri p) base;
      Ok (pdf, None)
  | VList _ =>
      options ← keyword_args "read_parquet" [("columns", columns)] base;
      pdf ← pd_read_parquet E w (FileParser.uri p) options;
      Ok (pdf, None)
  | _ =>
      schema ← Schema_new E columns;
      options ← keyword_args "read_parquet" [("columns", names_list schema)] base;
      pdf ← pd_read_parquet E w (FileParser.uri p) options;
      Ok (pdf, Some schema)
  end.

(** The second half of [_load_csv]: the read, once [header] has been
    taken out of [kw]. *)
Definition _load_csv_read (w : World E) (p : FileParser.t) (columns : pyval)
    (header : pyval) (kw : kwargs_t) : Result Loaded :=
  if Py.str_mem (py_str header) ["True"; "0"] then
    pdf ← pd_read_csv E w (FileParser.uri p)
            (dict_merge {[ "index_col" := VBool false; "header" := VInt 0 ]} kw);
    select_columns pdf columns
  else if is_None header || String.eqb (py_str header) "False" then
    match columns with
    | VNone => Raise (InvalidOperationError "columns must be set if without header")
    | VList _ =>
        pdf ← pd_read_csv E w (FileParser.uri p)
                (dict_merge {[ "index_col" := VBool false; "header" := VNone;
                               "names" := columns ]} kw);
        Ok (pdf, None)
    | _ =>
        schema ← Schema_new E columns;
        pdf ← pd_read_csv E w (FileParser.uri p)
                (dict_merge {[ "index_col" := VBool false; "header" := VNone;
                               "names" := names_list schema ]} kw);
        Ok (pdf, Some schema)
    end
  else Raise (NotImplementedError (py_str header +:+ " is not supported")).

Definition _load_csv (w : World E) (p : FileParser.t) (columns : pyval)
    (kwargs : kwargs_t) : Result Loaded :=
  let kw := kwargs in
  infer_schema ← ParamDict.get_bool kw "infer_schema" false;
  let kw :=
    if negb infer_schema then <["dtype" := VObj "<class 'object'>"]> kw else kw in
  kw ← (if ParamDict.contains kw "infer_schema"
        then ParamDict.delitem kw "infer_schema" else Ok kw);
  '(header, kw) ←
    (if ParamDict.contains kw "header" then
       header ← ParamDict.getitem kw "header";
       kw ← ParamDict.delitem kw "header";
       Ok (header, kw)
     else Ok (VBool false, kw));
  _load_csv_read w p columns header kw.

Definition _load_json (w : World E) (p : FileParser.t) (columns : pyval)
    (kwargs : kwargs_t) : Result Loaded :=
  pdf ← pdf_reset_index E <$> pd_read_json E w (FileParser.uri p) kwargs;
  select_columns pdf columns.

(** [preprocess_record] stays [None], so the records are read as they
    are; the [process_record] option is only taken out of [kw]. *)
Definition _load_avro (w : World E) (p : FileParser.t) (columns : pyval)
    (kwargs : kwargs_t) : Result Loaded :=
  _ ← (if ParamDict.contains kwargs "process_record"
       then ParamDict.delitem kwargs "process_record" else Ok kwargs);
  pdf ← avro_read_records E w (FileParser.uri p);
  select_columns pdf columns.

(** The call [f(p, columns, **kwargs)] of a
    [def f(p, columns=None, **kwargs)]. *)
Definition call_p_columns (name : string)
    (f : World E → FileParser.t → pyval → kwargs_t → Result Loaded)
    (w : World E) (p : FileParser.t) (columns : pyval) (kwargs : kwargs_t)
  : Result Loaded :=
  match List.find (ParamDict.contains kwargs) ["p"; "columns"] with
  | Some k =>
      Raise (TypeError (name +:+ "() got multiple values for argument '"
                        +:+ k +:+ "'"))
  | None => f w p columns kwargs
  end.

Definition _FORMAT_LOAD
  : list (string * (World E → FileParser.t → pyval → kwargs_t → Result Loaded)) :=
  [("csv", call_p_columns "_load_csv" _load_csv);
   ("parquet", call_p_columns "_load_parquet" _load_parquet);
   ("json", call_p_columns "_load_json" _load_json);
   ("avro", call_p_columns "_load_avro" _load_avro)].

(** *** [_get_single_files]

    A generator is the list of what it yields together with the way it
    ends.  The loaders only read the world, so what a generator yields
    does not depend on when its consumer asks for the next item. *)
Inductive Ending : Type :=
| Exhausted
| Raised (e : exn)
| OutOfFuel.

Definition Gen (A : Type) : Type := list A * Ending.

(** Running [g2] after [g1] in one generator body *)
Definition gen_then {A} (g1 g2 : Gen A) : Gen A :=
  match g1 with
  | (xs, Exhausted) => (xs ++ g2.1, g2.2)
  | _ => g1
  end.

(** [for x in xs: yield f(x)] *)
Fixpoint yield_each {A B} (f : A → Result B) (xs : list A) : Gen B :=
  match xs with
  | [] => ([], Exhausted)
  | x :: xs' =>
      match f x with
      | Raise e => ([], Raised e)
      | Ok y => gen_then ([y], Exhausted) (yield_each f xs')
      end
  end.

(** [FileParser(os.path.join(f.uri, os.path.basename(x.path)))] for a
    glob match [x] *)
Definition reparse (f : FileParser.t) (x_path : string) : Result FileParser.t :=
  FileParser.__init__
    (Py.os_path_join (FileParser.uri f) (Py.os_path_basename x_path)) None.

(** [fuel] bounds the depth of the recursion through glob patterns: a
    matched entry whose name holds [*] or [?] is a glob again. *)
Fixpoint _get_single_files (fuel : nat) (fs : FileSystem (World E)) (w : World E)
    (fp : list FileParser.t) : Gen FileParser.t :=
  match fuel with
  | O => ([], OutOfFuel)
  | S fuel' =>
      (fix each (fp : list FileParser.t) : Gen FileParser.t :=
         match fp with
         | [] => ([], Exhausted)
         | f :: fp' =>
             gen_then
               (if Py.nonempty (FileParser.glob_pattern f) then
                  match
                    xs ← fs_glob fs w (FileParser.uri f) (FileParser.glob_pattern f);
                    comprehension (reparse f) xs
                  with
                  | Raise e => ([], Raised e)
                  | Ok files => _get_single_files fuel' fs w files
                  end
                else if fs_isdir fs w (FileParser.uri f) then
                  match fs_filterdir fs w (FileParser.uri f)
                          ["*." +:+ FileParser.file_format f] with
                  | Raise e => ([], Raised e)
                  | Ok names =>
                      yield_each
                        (fun x => FileParser.__init__
                                    (Py.os_path_join (FileParser.uri f) x) None)
                        names
                  end
                else ([f], Exhausted))
               (each fp')
         end) fp
  end.

(** *** [load_df] *)

Inductive UriArg : Type :=
| UriStr (uri : string)
| UriList (uris : list string).

(** The paths of [uri: Union[str, List[str]]] *)
Definition uri_list (uri : UriArg) : list string :=
  match uri with
  | UriStr u => [u]
  | UriList us => us
  end.

(** [pd.concat(dfs)]: pandas refuses an empty list. *)
Definition pd_concat (dfs : list (DataFrame E)) : Result (DataFrame E) :=
  match dfs with
  | [] => Raise (ValueError "No objects to concatenate")
  | _ => pd_concat_nonempty E dfs
  end.

(** One turn of the [for] loop: [_FORMAT_LOAD[f.file_format]] applied to
    [(f.assert_no_glob(), columns, **kwargs)]. *)
Definition load_one (w : World E) (columns : pyval) (kwargs : kwargs_t)
    (f : FileParser.t) : Result Loaded :=
  loader ← table_getitem _FORMAT_LOAD (FileParser.file_format f);
  p ← FileParser.assert_no_glob f;
  loader w p columns kwargs.

(** The [for] loop over the files the generator yields, from the
    current [dfs] and [schema]. *)
Fixpoint load_each (w : World E) (columns : pyval) (kwargs : kwargs_t)
    (files : list FileParser.t) (dfs : list (DataFrame E))
    (schema : option (Schema E)) : Result (list (DataFrame E) * option (Schema E)) :=
  match files with
  | [] => Ok (dfs, schema)
  | f :: files' =>
      '(df, schema) ← load_one w columns kwargs f;
      load_each w columns kwargs files' (dfs ++ [df]) schema
  end.

(** [None] when [fuel] did not suffice. *)
Definition load_df (fuel : nat) (w : World E) (uri : UriArg)
    (format_hint : option string) (columns : pyval)
    (fs : option (FileSystem (World E))) (kwargs : kwargs_t)
  : option (Result (LocalDataFrame E)) :=
  match comprehension (fun u => FileParser.__init__ u format_hint) (uri_list uri) with
  | Raise e => Some (Raise e)
  | Ok fp =>
      let '(files, ending) :=
        _get_single_files fuel (default (FileSystem_default E) fs) w fp in
      match load_each w columns kwargs files [] None with
      | Raise e => Some (Raise e)
      | Ok (dfs, schema) =>
          match ending with
          | Raised e => Some (Raise e)
          | OutOfFuel => None
          | Exhausted => Some (pdf ← pd_concat dfs; PandasDataFrame E pdf schema)
          end
      end
  end.

End Load.

(** ** An in-memory instance of the collaborators

    Files are tables of text cells kept under their URI, directories list
    the names of their entries, and a read-only world refuses every
    change.  The theorems below hold for all collaborators; this instance
    runs them on concrete inputs. *)

Module InMemory.

Record Frame : Type := mkFrame {
  columns : list string;
  rows : list (list string)
}.

Record world : Type := mkWorld {
  files : gmap string (list (list string));
  dirs : gmap string (list string);
  read_only : bool
}.

Definition refused : exn := CollaboratorError "read-only file system".
Definition not_found : exn := CollaboratorError "resource not found".

(** [*suffix] matches the names that end in [suffix]; any other pattern
    matches itself. *)
Definition glob_match (pattern name : string) : bool :=
  match pattern with
  | String "*" suffix => Py.endswith name suffix
  | _ => String.eqb pattern name
  end.

Definition remove (w : world) (uri : string) : option exn * world :=
  if read_only w then (Some refused, w)
  else match files w !! uri with
       | Some _ => (None, mkWorld (delete uri (files w)) (dirs w) (read_only w))
       | None => (Some not_found, w)
       end.

Definition removetree (w : world) (uri : string) : option exn * world :=
  if read_only w then (Some refused, w)
  else match dirs w !! uri with
       | Some _ => (None, mkWorld (files w) (delete uri (dirs w)) (read_only w))
       | None => (Some not_found, w)
       end.

Definition fs : FileSystem world := {|
  fs_exists w uri :=
    bool_decide (is_Some (files w !! uri)) || bool_decide (is_Some (dirs w !! uri));
  fs_remove := remove;
  fs_removetree := removetree;
  fs_isdir w uri := bool_decide (is_Some (dirs w !! uri));
  fs_glob w uri pattern :=
    match dirs w !! uri with
    | Some names => Ok ((fun n => "/" +:+ n) <$> List.filter (glob_match pattern) names)
    | None => Raise not_found
    end;
  fs_filterdir w uri patterns :=
    match dirs w !! uri with
    | Some names =>
        Ok (List.filter (fun n => existsb (fun p => glob_match p n) patterns) names)
    | None => Raise not_found
    end
|}.

(** A headerless read names the columns from [names]; any other read
    takes the first row as the header. *)
Definition read (w : world) (uri : string) (options : kwargs_t) : Result Frame :=
  match files w !! uri with
  | None => Raise not_found
  | Some rs =>
      match options !! "header", options !! "names" with
      | Some VNone, Some (VList names) => Ok (mkFrame (py_str <$> names) rs)
      | Some VNone, _ => Ok (mkFrame [] rs)
      | _, _ =>
          match rs with
          | h :: t => Ok (mkFrame h t)
          | [] => Ok (mkFrame [] [])
          end
      end
  end.

(** The header row is written unless [header] is falsy. *)
Definition write (w : world) (pdf : Frame) (uri : string) (options : kwargs_t)
  : option exn * world :=
  if read_only w then (Some refused, w)
  else
    let header_row :=
      if truthy (default (VBool true) (options !! "header")) then [columns pdf] else [] in
    (None, mkWorld (<[uri := header_row ++ rows pdf]> (files w)) (dirs w) (read_only w)).

Definition position (name : string) (cols : list string) : option nat :=
  fst <$> List.find (fun ic => String.eqb name ic.2) (imap pair cols).

Definition getitem (pdf : Frame) (key : pyval) : Result Frame :=
  match key with
  | VList names =>
      match mapM (M := option) (fun n => position (py_str n) (columns pdf)) names with
      | Some idx =>
          Ok (mkFrame (py_str <$> names)
                ((fun r : list string =>
                    (fun i : nat => default "" (r !! i)) <$> idx) <$> rows pdf))
      | None => Raise (KeyError (py_repr key))
      end
  | _ => Raise (KeyError (py_repr key))
  end.

Definition schema_new (v : pyval) : Result (list (string * string)) :=
  match v with
  | VDict d => Ok ((fun kv => (kv.1, py_str kv.2)) <$> d)
  | _ => Raise (CollaboratorError "not a schema")
  end.

Definition concat (dfs : list Frame) : Result Frame :=
  Ok (mkFrame (default [] (columns <$> head dfs)) (mjoin (rows <$> dfs))).

Definition env : Collaborators := {|
  World := world;
  DataFrame := Frame;
  Schema := list (string * string);
  LocalDataFrame := Frame * option (list (string * string));
  FileSystem_default := fs;
  Schema_new := schema_new;
  Schema_names s := fst <$> s;
  PandasDataFrame pdf schema := Ok (pdf, schema);
  as_pandas df := df.1;
  pa_schema df := VObj "pyarrow.Schema";
  pd_read_csv := read;
  pd_read_parquet := read;
  pd_read_json := read;
  avro_read_records w uri := read w uri ∅;
  pdf_getitem := getitem;
  pdf_reset_index pdf := pdf;
  pd_concat_nonempty := concat;
  pdf_to_csv := write;
  pdf_to_parquet := write;
  pdf_to_json := write;
  pdx_to_avro w uri df options := write w df.1 uri options
|}.

(** A directory [d] with three entries, and a file [out.csv]. *)
Definition sample : world := {|
  files := {[ "d/a.csv" := [["1"; "2"]; ["3"; "4"]];
              "d/b.csv" := [["5"; "6"]];
              "d/c.xyz" := [["7"]];
              "out.csv" := [["old"]] ]};
  dirs := {[ "d" := ["a.csv"; "b.csv"; "c.xyz"] ]};
  read_only := false
|}.

Definition table : Frame * option (list (string * string)) :=
  (mkFrame ["a"; "b"] [["1"; "2"]], None).

End InMemory.


(** The last character of a string, to tell registered suffixes apart *)
Fixpoint last_char (s : string) : option ascii :=
  match s with
  | EmptyString => None
  | String c EmptyString => Some c
  | String _ s' => last_char s'
  end.

(** * Properties *)

(** ** The parser *)

Lemma bind_Ok {A B} (r : Result A) (k : A → Result B) (b : B) :
  r ≫= k = Ok b → ∃ a, r = Ok a ∧ k a = Ok b.
Proof. destruct r as [a|e]; [eauto | discriminate]. Qed.

Lemma bind_Raise {A B} (r : Result A) (k : A → Result B) (e : exn) :
  r ≫= k = Raise e → r = Raise e ∨ ∃ a, r = Ok a ∧ k a = Raise e.
Proof. destruct r as [a|e']; [eauto | intros [= ->]; auto]. Qed.


Lemma app_cons (c : ascii) (a b : string) : String c a +:+ b = String c (a +:+ b).
Proof. reflexivity. Qed.

Lemma app_empty (b : string) : "" +:+ b = b.
Proof. reflexivity. Qed.


Lemma glob_is_not_sep (c : ascii) :
  FileParser.is_glob c = true → FileParser.is_sep c = false.
Proof.
  unfold FileParser.is_glob, FileParser.is_sep; cbn.
  rewrite !orb_false_r. intros [H|H]%orb_true_iff; apply Ascii.eqb_eq in H; by subst.
Qed.

Lemma any_chars_cons (p : ascii → bool) (c : ascii) (s : string) :
  Py.any_chars p (String c s) = p c || Py.any_chars p s.
Proof. reflexivity. Qed.

Lemma scan_cons (c : ascii) (s : string) (i l0 : nat) :
  FileParser.scan (String c s) i l0
  = if FileParser.is_glob c
    then (if FileParser.is_sep c then i else l0, true)
    else FileParser.scan s (S i) (if FileParser.is_sep c then i else l0).
Proof. reflexivity. Qed.



Lemma scan_no_glob (s : string) (i l0 : nat) :
  Py.any_chars FileParser.is_glob s = false → (FileParser.scan s i l0).2 = false.
Proof.
  revert i l0. induction s as [|c s IH]; intros i l0; [done|].
  rewrite any_chars_cons, scan_cons. destruct (FileParser.is_glob c); [done|].
  cbn. apply IH.
Qed.

(** Past a glob-free prefix that ends in a separator, the scan goes on
    with [last] at that separator. *)
Lemma scan_past_separator (pre post : string) (c : ascii) (i l0 : nat) :
  Py.any_chars FileParser.is_glob pre = false →
  FileParser.is_sep c = true →
  FileParser.scan (pre +:+ String c post) i l0
  = FileParser.scan post (S (i + Py.len pre)) (i + Py.len pre).
Proof.
  intros Hpre Hc. revert i l0 Hpre.
  induction pre as [|d pre IH]; intros i l0.
  - intros _. rewrite app_empty, scan_cons, Hc.
    destruct (FileParser.is_glob c) eqn:Hg.
    + apply glob_is_not_sep in Hg. congruence.
    + unfold Py.len; cbn. by rewrite Nat.add_0_r.
  - rewrite any_chars_cons. intros [Hd Hpre]%orb_false_iff.
    rewrite app_cons, scan_cons, Hd, IH by done.
    unfold Py.len; cbn. f_equal; lia.
Qed.

Lemma urlsplit_rest_raises (scheme url : string) (e : exn) :
  Py.urlsplit_rest scheme url = Raise e → e = ValueError "Invalid IPv6 URL".
Proof.
  unfold Py.urlsplit_rest. intros H.
  apply bind_Raise in H as [H|(nu & _ & H)].
  - repeat case_match; congruence.
  - repeat case_match; congruence.
Qed.

Lemma urlparse_raises (url : string) (e : exn) :
  Py.urlparse url = Raise e → e = ValueError "Invalid IPv6 URL".
Proof.
  unfold Py.urlparse. intros H.
  apply bind_Raise in H as [H|(r & _ & H)].
  - unfold Py.urlsplit in H.
    repeat case_match; eauto using urlsplit_rest_raises.
  - repeat case_match; congruence.
Qed.

Lemma locate_raises (path : string) (e : exn) :
  FileParser.locate path = Raise e → e = ValueError "Invalid IPv6 URL".
Proof.
  unfold FileParser.locate. destruct (FileParser.scan _ _ _) as [last []]; cbn;
    intros H; apply bind_Raise in H as [H|(r & _ & H)];
    eauto using urlparse_raises; discriminate.
Qed.

Lemma resolve_format_raises (p : string) (hint : option string) (e : exn) :
  FileParser.resolve_format p hint = Raise e → ∃ m, e = NotImplementedError m.
Proof.
  unfold FileParser.resolve_format, assert_or_throw.
  intros H. repeat case_match; simplify_eq; cbn in *; simplify_eq; eauto.
Qed.

Lemma init_Ok (path : string) (hint : option string) (ps : FileParser.t) :
  FileParser.__init__ path hint = Ok ps →
  FileParser.locate path
    = Ok (FileParser._uri ps, FileParser._glob_pattern ps, FileParser._path ps)
  ∧ FileParser.resolve_format (FileParser._path ps) hint = Ok (FileParser._format ps).
Proof.
  unfold FileParser.__init__. intros H.
  apply bind_Ok in H as ([[u g] p] & Hl & H).
  apply bind_Ok in H as (fmt & Hf & [= <-]). done.
Qed.

Lemma init_raises (path : string) (hint : option string) (e : exn) :
  FileParser.__init__ path hint = Raise e →
  e = ValueError "Invalid IPv6 URL" ∨ ∃ m, e = NotImplementedError m.
Proof.
  unfold FileParser.__init__. intros H.
  apply bind_Raise in H as [H|([[u g] p] & _ & H)].
  - left. eauto using locate_raises.
  - apply bind_Raise in H as [H|(? & _ & H)]; [|discriminate].
    right. eauto using resolve_format_raises.
Qed.

Lemma resolve_format_hint (p h : string) :
  h ≠ "" → Py.str_mem h _FORMAT_MAP_values = true →
  FileParser.resolve_format p (Some h) = Ok h.
Proof.
  intros Hne Hmem. unfold FileParser.resolve_format.
  destruct h as [|c h]; [done|]. by rewrite Hmem.
Qed.




(** ** Format inference *)

Lemma slice_to_from (n : nat) (s : string) :
  Py.slice_to n s +:+ Py.slice_from n s = s.
Proof.
  revert s. induction n as [|n IH]; intros [|c s]; try reflexivity.
  cbn [Py.slice_to Py.slice_from]. by rewrite app_cons, IH.
Qed.

Lemma endswith_app (s k : string) :
  Py.endswith s k = true → ∃ pre, s = pre +:+ k.
Proof.
  unfold Py.endswith. intros [_ H]%andb_true_iff. apply String.eqb_eq in H.
  remember (Py.len s - Py.len k) as n eqn:Hn. clear Hn.
  exists (Py.slice_to n s). subst k. by rewrite slice_to_from.
Qed.

Lemma last_char_app (pre k : string) :
  k ≠ "" → last_char (pre +:+ k) = last_char k.
Proof.
  intros Hk. induction pre as [|c pre IH]; [done|].
  rewrite app_cons. cbn. rewrite IH.
  destruct (pre +:+ k) eqn:Happ; [|done].
  destruct pre; [|done]. by rewrite app_empty in Happ.
Qed.

(** Two suffixes of one string end in the same character. *)
Lemma endswith_same_last (s k1 k2 : string) :
  k1 ≠ "" → k2 ≠ "" →
  Py.endswith s k1 = true → Py.endswith s k2 = true →
  last_char k1 = last_char k2.
Proof.
  intros H1 H2 [p1 E1]%endswith_app [p2 E2]%endswith_app.
  rewrite <- (last_char_app p1 k1), <- (last_char_app p2 k2) by done.
  by rewrite <- E1, <- E2.
Qed.

Lemma endswith_other (s k1 k2 : string) :
  k1 ≠ "" → k2 ≠ "" → last_char k1 ≠ last_char k2 →
  Py.endswith s k1 = true → Py.endswith s k2 = false.
Proof.
  intros H1 H2 Hne Hk1. destruct (Py.endswith s k2) eqn:Hk2; [|done].
  destruct Hne. eauto using endswith_same_last.
Qed.

Lemma init_of_locate (path : string) (hint : option string)
    (uri : Py.ParseResult) (g p : string) :
  FileParser.locate path = Ok (uri, g, p) →
  FileParser.__init__ path hint
  = (format ← FileParser.resolve_format p hint; Ok (FileParser.mk uri g p format)).
Proof. unfold FileParser.__init__. by intros ->. Qed.

Lemma resolve_format_unknown_hint (p h : string) :
  h ≠ "" → Py.str_mem h _FORMAT_MAP_values = false →
  FileParser.resolve_format p (Some h)
  = Raise (NotImplementedError (h +:+ " is not supported")).
Proof.
  intros Hne Hmem. unfold FileParser.resolve_format.
  destruct h as [|c h]; [done|]. by rewrite Hmem.
Qed.

Lemma resolve_format_unregistered (p : string) :
  (∀ k, k ∈ _FORMAT_MAP.*1 → Py.endswith (FileParser.suffix_of p) k = false) →
  FileParser.resolve_format p None
  = Raise (NotImplementedError (FileParser.suffix_of p +:+ " is not supported")).
Proof.
  intros H. unfold FileParser.resolve_format, _FORMAT_MAP. cbn [List.find fst].
  by rewrite !H by (cbn; repeat constructor).
Qed.

(** Format resolution over the compound suffix of the located path:
    without a hint, a suffix that ends in [.csv.gz] gives [csv], one
    that ends in [.parquet] gives [parquet], one that ends in no
    registered suffix is refused with [NotImplementedError], and so is a
    hint that is not a registered format tag. *)
Theorem format_inference (path : string) (hint : option string)
    (uri : Py.ParseResult) (g p : string) :
  hint = None ∨ hint = Some "" →
  FileParser.locate path = Ok (uri, g, p) →
  (Py.endswith (FileParser.suffix_of p) ".csv.gz" = true →
   FileParser.__init__ path hint = Ok (FileParser.mk uri g p "csv"))
  ∧ (Py.endswith (FileParser.suffix_of p) ".parquet" = true →
     FileParser.__init__ path hint = Ok (FileParser.mk uri g p "parquet"))
  ∧ ((∀ k, k ∈ _FORMAT_MAP.*1 → Py.endswith (FileParser.suffix_of p) k = false) →
     FileParser.__init__ path hint
     = Raise (NotImplementedError (FileParser.suffix_of p +:+ " is not supported")))
  ∧ (∀ h, h ≠ "" → Py.str_mem h _FORMAT_MAP_values = false →
     FileParser.__init__ path (Some h)
     = Raise (NotImplementedError (h +:+ " is not supported"))).
Proof.
  intros Hhint Hloc.
  assert (FileParser.resolve_format p hint = FileParser.resolve_format p None) as Hnone.
  { by destruct Hhint as [-> | ->]. }
  rewrite (init_of_locate path hint uri g p Hloc), Hnone.
  split; [|split; [|split]].
  - intros H. unfold FileParser.resolve_format, _FORMAT_MAP. cbn [List.find fst].
    destruct (Py.endswith _ ".csv"); [done|]. by rewrite H.
  - intros H. unfold FileParser.resolve_format, _FORMAT_MAP. cbn [List.find fst].
    rewrite (endswith_other _ ".parquet" ".csv") by done.
    rewrite (endswith_other _ ".parquet" ".csv.gz") by done.
    by rewrite H.
  - intros H. by rewrite resolve_format_unregistered.
  - intros h Hne Hmem. rewrite (init_of_locate path _ uri g p Hloc).
    by rewrite resolve_format_unknown_hint.
Qed.

Lemma format_inference_witness :
  (∃ ps, FileParser.__init__ "a.csv.gz" None = Ok ps ∧ FileParser.file_format ps = "csv")
  ∧ (∃ ps, FileParser.__init__ "A.CSV.GZ" None = Ok ps ∧ FileParser.file_format ps = "csv")
  ∧ (∃ ps, FileParser.__init__ "a.parquet" None = Ok ps
           ∧ FileParser.file_format ps = "parquet")
  ∧ FileParser.__init__ "a.xyz" None = Raise (NotImplementedError ".xyz is not supported")
  ∧ FileParser.__init__ "a.csv" (Some "xyz")
    = Raise (NotImplementedError "xyz is not supported").
Proof.
  pose (u := fun s => Py.mkParseResult "" "" s "" "" "").
  pose proof (format_inference "a.csv.gz" None (u "a.csv.gz") "" "a.csv.gz"
                (or_introl eq_refl) eq_refl) as (H1 & _).
  pose proof (format_inference "A.CSV.GZ" None (u "A.CSV.GZ") "" "A.CSV.GZ"
                (or_introl eq_refl) eq_refl) as (H2 & _).
  pose proof (format_inference "a.parquet" None (u "a.parquet") "" "a.parquet"
                (or_introl eq_refl) eq_refl) as (_ & H3 & _).
  pose proof (format_inference "a.xyz" None (u "a.xyz") "" "a.xyz"
                (or_introl eq_refl) eq_refl) as (_ & _ & H4 & _).
  pose proof (format_inference "a.csv" None (u "a.csv") "" "a.csv"
                (or_introl eq_refl) eq_refl) as (_ & _ & _ & H5).
  split; [|split; [|split; [|split]]].
  - eexists. split; [apply H1; reflexivity | reflexivity].
  - eexists. split; [apply H2; reflexivity | reflexivity].
  - eexists. split; [apply H3; reflexivity | reflexivity].
  - apply H4. intros k Hk. cbn in Hk.
    repeat (apply elem_of_cons in Hk as [-> | Hk]; [reflexivity|]).
    by apply elem_of_nil in Hk.
  - apply (H5 "xyz"); [discriminate | reflexivity].
Defined.

(** ** Saving *)

Lemma str_mem_values (fmt : string) :
  Py.str_mem fmt _FORMAT_MAP_values = true →
  fmt ∈ ["csv"; "parquet"; "json"; "avro"].
Proof.
  unfold Py.str_mem, _FORMAT_MAP_values, _FORMAT_MAP. cbn [fmap list_fmap snd existsb].
  rewrite !orb_true_iff, !String.eqb_eq.
  intros H. decompose [or] H; subst; try done; repeat constructor.
Qed.

Lemma resolve_format_registered (p : string) (hint : option string) (fmt : string) :
  FileParser.resolve_format p hint = Ok fmt →
  fmt ∈ ["csv"; "parquet"; "json"; "avro"].
Proof.
  assert (∀ q, FileParser.resolve_format q None = Ok fmt →
               fmt ∈ ["csv"; "parquet"; "json"; "avro"]) as Hnone.
  { intros q. unfold FileParser.resolve_format, _FORMAT_MAP. cbn [List.find fst].
    repeat (match goal with
            | |- context [Py.endswith ?a ?b] => destruct (Py.endswith a b)
            end; [intros [= <-]; repeat constructor|]).
    done. }
  destruct hint as [[|c h]|]; [by apply Hnone| |by apply Hnone].
  unfold FileParser.resolve_format, assert_or_throw.
  destruct (Py.str_mem _ _) eqn:Hmem; [|done].
  intros [= <-]. by apply str_mem_values.
Qed.

Lemma parsed_format_registered (path : string) (hint : option string) (p : FileParser.t) :
  FileParser.__init__ path hint ≫= FileParser.assert_no_glob = Ok p →
  FileParser.file_format p ∈ ["csv"; "parquet"; "json"; "avro"].
Proof.
  intros H. apply bind_Ok in H as (q & Hq & H).
  apply init_Ok in Hq as [_ Hq]. apply resolve_format_registered in Hq.
  unfold FileParser.assert_no_glob, assert_or_throw in H.
  destruct (String.eqb _ _); [|done]. by injection H as <-.
Qed.

Lemma saver_registered (E : Collaborators) (fmt : string) :
  fmt ∈ ["csv"; "parquet"; "json"; "avro"] →
  ∃ saver, table_getitem (_FORMAT_SAVE E) fmt = Ok saver.
Proof.
  intros H. repeat (apply elem_of_cons in H as [-> | H]; [by eexists|]).
  by apply elem_of_nil in H.
Qed.

(** C3: a save with [mode="error"] onto a destination that parses as a
    single file and exists raises [FileExistsError]; the world is the one
    it started from and the only call made on it is [exists]. *)
Theorem save_error_mode_existing (E : Collaborators) (df : LocalDataFrame E)
    (uri : string) (format_hint : option string)
    (fs : option (FileSystem (World E))) (kwargs : kwargs_t)
    (p : FileParser.t) (st : State E) :
  FileParser.__init__ uri format_hint ≫= FileParser.assert_no_glob = Ok p →
  fs_exists (default (FileSystem_default E) fs) (world st) uri = true →
  save_df E df uri format_hint "error" fs kwargs st
  = (Raise (FileExistsError uri), mkState E (world st) (trace st ++ [EvExists uri])).
Proof.
  intros Hp Hex. unfold save_df.
  unfold mbind at 1, M_bind at 1. cbn [lift assert_or_throw Py.str_mem existsb].
  cbn [String.eqb Ascii.eqb Bool.eqb orb].
  unfold mbind at 1, M_bind at 1, lift at 1. rewrite Hp.
  unfold mbind at 1, M_bind at 1, query at 1. rewrite Hex.
  reflexivity.
Qed.

Lemma save_error_mode_existing_witness :
  run (save_df InMemory.env InMemory.table "out.csv" None "error" None ∅) InMemory.sample
  = (Raise (FileExistsError "out.csv"),
     mkState InMemory.env InMemory.sample [EvExists "out.csv"]).
Proof.
  eapply (save_error_mode_existing InMemory.env InMemory.table "out.csv" None None ∅);
    reflexivity.
Defined.

(** C4: a save with [mode="overwrite"] onto an existing destination
    first calls [remove]; if that raises it calls [removetree]; whether or
    not that raises too, the registered saver is then run, in the world
    that these calls left. *)
Theorem save_overwrite_cleanup (E : Collaborators) (df : LocalDataFrame E)
    (uri : string) (format_hint : option string)
    (fs : option (FileSystem (World E))) (kwargs : kwargs_t)
    (p : FileParser.t) (st : State E) :
  FileParser.__init__ uri format_hint ≫= FileParser.assert_no_glob = Ok p →
  fs_exists (default (FileSystem_default E) fs) (world st) uri = true →
  ∃ saver,
    table_getitem (_FORMAT_SAVE E) (FileParser.file_format p) = Ok saver
    ∧ save_df E df uri format_hint "overwrite" fs kwargs st
      = match fs_remove (default (FileSystem_default E) fs) (world st) uri with
        | (None, w1) =>
            saver df p kwargs
              (mkState E w1 (trace st ++ [EvExists uri; EvRemove uri]))
        | (Some _, w1) =>
            saver df p kwargs
              (mkState E
                 (fs_removetree (default (FileSystem_default E) fs) w1 uri).2
                 (trace st ++ [EvExists uri; EvRemove uri; EvRemoveTree uri]))
        end.
Proof.
  intros Hp Hex.
  destruct (saver_registered E _ (parsed_format_registered _ _ _ Hp)) as [saver Hs].
  exists saver. split; [done|]. unfold save_df.
  unfold mbind at 1, M_bind at 1. cbn [lift assert_or_throw Py.str_mem existsb].
  cbn [String.eqb Ascii.eqb Bool.eqb orb].
  unfold mbind at 1, M_bind at 1, lift at 1. rewrite Hp.
  unfold mbind at 1, M_bind at 1, query at 1. rewrite Hex.
  unfold mbind at 1, M_bind at 1.
  unfold mbind at 1, M_bind at 1. cbn [lift assert_or_throw String.eqb Ascii.eqb Bool.eqb].
  unfold try_except at 1, command at 1. cbn [world trace].
  destruct (fs_remove _ _ _) as [[e1|] w1].
  - unfold try_except, command. cbn [world trace].
    destruct (fs_removetree _ _ _) as [[e2|] w2]; cbn [snd mret M_ret];
      unfold mbind, M_bind, lift; rewrite Hs, <- !app_assoc; reflexivity.
  - unfold mbind, M_bind, lift. rewrite Hs, <- !app_assoc. reflexivity.
Qed.

Lemma save_overwrite_cleanup_witness :
  run (save_df InMemory.env InMemory.table "out.csv" None "overwrite" None ∅)
      (InMemory.mkWorld (InMemory.files InMemory.sample) (InMemory.dirs InMemory.sample) true)
  = (Raise InMemory.refused,
     mkState InMemory.env
       (InMemory.mkWorld (InMemory.files InMemory.sample) (InMemory.dirs InMemory.sample) true)
       [EvExists "out.csv"; EvRemove "out.csv"; EvRemoveTree "out.csv";
        EvWrite "to_csv" "out.csv" {[ "index" := VBool false; "header" := VBool false ]}]).
Proof.
  destruct (save_overwrite_cleanup InMemory.env InMemory.table "out.csv" None None ∅
              _ (mkState InMemory.env
                   (InMemory.mkWorld (InMemory.files InMemory.sample)
                      (InMemory.dirs InMemory.sample) true) [])
              eq_refl eq_refl) as (saver & Hs & H).
  injection Hs as <-. unfold run. rewrite H. reflexivity.
Defined.

(** C6 (amended): [_save_csv] calls [to_csv] once, with [header=False]
    and [index=False] unless the caller's options give [header] or
    [index], which then replace the default; every option of the caller
    is passed on as it is. *)
Theorem save_csv_options (E : Collaborators) (df : LocalDataFrame E)
    (p : FileParser.t) (kwargs : kwargs_t) (st : State E) :
  ∃ options : kwargs_t,
    _save_csv E df p kwargs st
    = ((match (pdf_to_csv E (world st) (as_pandas E df) (FileParser.uri p) options).1 with
        | Some e => Raise e
        | None => Ok tt
        end),
       mkState E (pdf_to_csv E (world st) (as_pandas E df) (FileParser.uri p) options).2
         (trace st ++ [EvWrite "to_csv" (FileParser.uri p) options]))
    ∧ options !! "header" = Some (default (VBool false) (kwargs !! "header"))
    ∧ options !! "index" = Some (default (VBool false) (kwargs !! "index"))
    ∧ ∀ k v, kwargs !! k = Some v → options !! k = Some v.
Proof.
  exists (dict_merge {[ "index" := VBool false; "header" := VBool false ]} kwargs).
  split; [|split; [|split]].
  - unfold _save_csv, command. by destruct (pdf_to_csv _ _ _ _ _).
  - unfold dict_merge. rewrite lookup_union.
    destruct (kwargs !! "header") as [v|]; [by rewrite union_Some_l | reflexivity].
  - unfold dict_merge. rewrite lookup_union.
    destruct (kwargs !! "index") as [v|]; [by rewrite union_Some_l | reflexivity].
  - intros k v Hk. unfold dict_merge. by apply lookup_union_Some_l.
Qed.

(** C6, as stated, fails: with the option [header=True] the file is
    written with its header row. *)
Lemma save_csv_header_counterexample :
  let r := run (save_df InMemory.env InMemory.table "new.csv" None "overwrite" None
                  {[ "header" := VBool true ]}) InMemory.sample in
  r.1 = Ok tt
  ∧ trace r.2
    = [EvExists "new.csv";
       EvWrite "to_csv" "new.csv" {[ "header" := VBool true; "index" := VBool false ]}]
  ∧ InMemory.files (world r.2) !! "new.csv" = Some [["a"; "b"]; ["1"; "2"]].
Proof. split; [|split]; vm_compute; reflexivity. Qed.

(** ** The Avro saver *)

Lemma contains_true (kw : kwargs_t) (k : string) :
  ParamDict.contains kw k = true ↔ is_Some (kw !! k).
Proof. unfold ParamDict.contains. by rewrite bool_decide_eq_true. Qed.

Lemma delitem_Ok (kw kw' : kwargs_t) (k : string) :
  ParamDict.delitem kw k = Ok kw' → kw' = delete k kw.
Proof. unfold ParamDict.delitem. destruct (kw !! k); by intros [= <-]. Qed.

(** The steps of [_save_avro] between reading [schema] and the call only
    delete other keys: [schema] stays in [kw]. *)
Lemma delitem_keeps (kw kw' : kwargs_t) (k : string) :
  k ≠ "schema" → ParamDict.delitem kw k = Ok kw' → kw' !! "schema" = kw !! "schema".
Proof. intros Hk ->%delitem_Ok. by rewrite lookup_delete_ne. Qed.

Lemma save_avro_options_not_Ok (columns : pyval) (kwargs options : kwargs_t) :
  _save_avro_options columns kwargs ≠ Ok options.
Proof.
  unfold _save_avro_options. intros H.
  apply bind_Ok in H as ([schema kw1] & H1 & H).
  apply bind_Ok in H as (kw2 & H2 & H).
  apply bind_Ok in H as ([append kw3] & H3 & H).
  apply bind_Ok in H as ([times kw4] & H4 & H).
  apply bind_Ok in H as (sv & Hsv & H).
  apply bind_Ok in H as (av & Hav & H).
  apply bind_Ok in H as (tv & Htv & H).
  destruct schema as [s|]; [clear Hsv | discriminate Hsv].
  assert (is_Some (kw1 !! "schema")) as Hin.
  { destruct (ParamDict.contains kwargs "schema") eqn:Hc; [|discriminate H1].
    apply contains_true in Hc.
    apply bind_Ok in H1 as (s0 & _ & H1).
    apply bind_Ok in H1 as (s1 & _ & H1).
    apply bind_Ok in H1 as (kw & Hdel & [= _ <-]).
    by rewrite (delitem_keeps kwargs kw "infer_schema"). }
  assert (kw2 !! "schema" = kw1 !! "schema") as E2.
  { destruct (ParamDict.contains kw1 "infer_schema"); [|by injection H2 as <-].
    apply bind_Ok in H2 as (i & _ & H2).
    apply bind_Ok in H2 as ([] & _ & H2); [discriminate H2|].
    by apply delitem_keeps in H2. }
  assert (kw3 !! "schema" = kw2 !! "schema") as E3.
  { apply bind_Ok in H3 as (v & _ & H3).
    apply bind_Ok in H3 as ([] & _ & H3); [|by injection H3 as _ <-].
    apply bind_Ok in H3 as (a & _ & H3).
    apply bind_Ok in H3 as (kw & Hdel & [= _ <-]).
    by apply delitem_keeps in Hdel. }
  assert (kw4 !! "schema" = kw3 !! "schema") as E4.
  { destruct (ParamDict.contains kw3 "times_as_micros"); [|by injection H4 as _ <-].
    apply bind_Ok in H4 as (t & _ & H4).
    apply bind_Ok in H4 as (kw & Hdel & [= _ <-]).
    by apply delitem_keeps in Hdel. }
  rewrite <- E2, <- E3, <- E4 in Hin. apply contains_true in Hin.
  cbn [List.find] in H. by rewrite Hin in H.
Qed.

(** C8 (the code, against the claim): [_save_avro] raises on every
    input and never reaches [pdx.to_avro]; without any option it raises
    [KeyError('append')], and with [append=True] alone a [TypeError]. *)
Theorem save_avro_always_raises :
  (∀ (E : Collaborators) (df : LocalDataFrame E) (p : FileParser.t)
     (columns : pyval) (kwargs : kwargs_t) (st : State E),
      ∃ e, _save_avro E df p columns kwargs st = (Raise e, st))
  ∧ (∀ columns, _save_avro_options columns ∅ = Raise (KeyError "append"))
  ∧ (∀ columns, _save_avro_options columns {[ "append" := VBool true ]}
                = Raise (TypeError "argument of type 'bool' is not iterable"))
  ∧ (run (save_df InMemory.env InMemory.table "new.avro" None "overwrite" None ∅)
         InMemory.sample
     = (Raise (KeyError "append"),
        mkState InMemory.env InMemory.sample [EvExists "new.avro"])).
Proof.
  split; [|split; [|split]].
  - intros E df p columns kwargs st. unfold _save_avro, mbind, M_bind, lift.
    destruct (_save_avro_options columns kwargs) as [o|e] eqn:Ho; [|by exists e].
    by apply save_avro_options_not_Ok in Ho.
  - reflexivity.
  - reflexivity.
  - vm_compute. reflexivity.
Qed.

(** ** The CSV loader *)

Lemma contains_false (kw : kwargs_t) (k : string) :
  ParamDict.contains kw k = false ↔ kw !! k = None.
Proof.
  unfold ParamDict.contains. rewrite bool_decide_eq_false.
  by rewrite eq_None_not_Some.
Qed.

(** Removing a key that may be missing: [if k in kw: del kw[k]] *)
Lemma discard_key (kw : kwargs_t) (k : string) :
  (if ParamDict.contains kw k then ParamDict.delitem kw k else Ok kw)
  = Ok (delete k kw).
Proof.
  destruct (ParamDict.contains kw k) eqn:Hc.
  - apply contains_true in Hc as [v Hv]. unfold ParamDict.delitem. by rewrite Hv.
  - apply contains_false in Hc. by rewrite delete_id.
Qed.

(** What [_load_csv] makes of its options before it reads. *)
Lemma load_csv_options (E : Collaborators) (w : World E) (p : FileParser.t)
    (columns : pyval) (kwargs : kwargs_t) (infer : bool) :
  ParamDict.get_bool kwargs "infer_schema" false = Ok infer →
  _load_csv E w p columns kwargs
  = _load_csv_read E w p columns (default (VBool false) (kwargs !! "header"))
      (delete "header"
         (delete "infer_schema"
            (if negb infer then <["dtype" := VObj "<class 'object'>"]> kwargs else kwargs))).
Proof.
  intros Hinfer. unfold _load_csv. rewrite Hinfer. cbn [mbind Result_bind].
  set (kw0 := if negb infer then _ else _).
  rewrite discard_key. cbn [mbind Result_bind].
  assert (delete "infer_schema" kw0 !! "header" = kwargs !! "header") as Hh.
  { rewrite lookup_delete_ne by done. subst kw0.
    destruct (negb infer); [by rewrite lookup_insert_ne|done]. }
  destruct (ParamDict.contains _ "header") eqn:Hc.
  - apply contains_true in Hc as [v Hv].
    unfold ParamDict.getitem, ParamDict.delitem. rewrite Hv. cbn [mbind Result_bind].
    rewrite <- Hh, Hv. reflexivity.
  - apply contains_false in Hc. cbn [mbind Result_bind].
    rewrite <- Hh, Hc. by rewrite (delete_id _ "header").
Qed.

(** C5: when the [header] option is absent (then [False]), [None], or
    has the text [False], [_load_csv] without [columns] raises
    [InvalidOperationError], and with a list of names it returns what
    [read_csv] reads with [header=None] and those names as [names] (and
    no schema); a [header] that is not [None] and whose text is none of
    [True], [0], [False] raises [NotImplementedError]. *)
Theorem load_csv_header (E : Collaborators) (w : World E) (p : FileParser.t)
    (kwargs : kwargs_t) (infer : bool) :
  ParamDict.get_bool kwargs "infer_schema" false = Ok infer →
  let header := default (VBool false) (kwargs !! "header") in
  (is_None header || String.eqb (py_str header) "False" = true →
   _load_csv E w p VNone kwargs
   = Raise (InvalidOperationError "columns must be set if without header")
   ∧ ∀ names, ∃ options : kwargs_t,
       _load_csv E w p (VList names) kwargs
       = (pdf ← pd_read_csv E w (FileParser.uri p) options; Ok (pdf, None))
       ∧ options !! "header" = Some VNone
       ∧ (kwargs !! "names" = None → options !! "names" = Some (VList names)))
  ∧ (is_None header = false →
     Py.str_mem (py_str header) ["True"; "0"; "False"] = false →
     ∀ columns,
       _load_csv E w p columns kwargs
       = Raise (NotImplementedError (py_str header +:+ " is not supported"))).
Proof.
  intros Hinfer header. split.
  - intros Hno.
    assert (Py.str_mem (py_str header) ["True"; "0"] = false) as Hyes.
    { apply orb_true_iff in Hno as [Hn|Hf].
      - by destruct header.
      - apply String.eqb_eq in Hf. by rewrite Hf. }
    split.
    + rewrite (load_csv_options E w p _ kwargs infer Hinfer).
      unfold _load_csv_read. fold header. by rewrite Hyes, Hno.
    + intros names. eexists. split; [|split].
      * rewrite (load_csv_options E w p _ kwargs infer Hinfer).
        unfold _load_csv_read. fold header. rewrite Hyes, Hno. reflexivity.
      * unfold dict_merge. rewrite lookup_union_r by apply lookup_delete_eq.
        reflexivity.
      * intros Hnames. unfold dict_merge. rewrite lookup_union_r; [reflexivity|].
        rewrite !lookup_delete_ne by done.
        destruct (negb infer); [by rewrite lookup_insert_ne|done].
  - intros Hnone Hstr columns.
    rewrite (load_csv_options E w p _ kwargs infer Hinfer).
    unfold _load_csv_read. fold header. rewrite Hnone.
    cbn [Py.str_mem existsb] in Hstr |- *.
    apply orb_false_iff in Hstr as [H1 [H2 [H3 _]%orb_false_iff]%orb_false_iff].
    rewrite H1, H2, H3. reflexivity.
Qed.

Lemma load_csv_header_witness :
  let p := FileParser.mk (Py.mkParseResult "" "" "d/a.csv" "" "" "") "" "d/a.csv" "csv" in
  _load_csv InMemory.env InMemory.sample p VNone {[ "header" := VBool false ]}
  = Raise (InvalidOperationError "columns must be set if without header")
  ∧ _load_csv InMemory.env InMemory.sample p (VList [VStr "a"; VStr "b"])
      {[ "header" := VBool false ]}
    = Ok (InMemory.mkFrame ["a"; "b"] [["1"; "2"]; ["3"; "4"]], None)
  ∧ _load_csv InMemory.env InMemory.sample p (VList [VStr "a"; VStr "b"])
      {[ "header" := VInt 1 ]}
    = Raise (NotImplementedError "1 is not supported").
Proof.
  intros p.
  pose proof (load_csv_header InMemory.env InMemory.sample p
                {[ "header" := VBool false ]} false eq_refl) as [Hno _].
  pose proof (load_csv_header InMemory.env InMemory.sample p
                {[ "header" := VInt 1 ]} false eq_refl) as [_ Hbad].
  destruct Hno as [Hmissing Hnames]; [vm_compute; reflexivity|].
  split; [exact Hmissing|]. split.
  - destruct (Hnames [VStr "a"; VStr "b"]) as (options & -> & Hheader & Hcols).
    unfold pd_read_csv, InMemory.env, InMemory.read.
    rewrite Hheader, Hcols by (vm_compute; reflexivity).
    vm_compute. reflexivity.
  - rewrite Hbad by (vm_compute; reflexivity). vm_compute. reflexivity.
Defined.

(** ** Loading *)

Lemma load_each_Ok (E : Collaborators) (w : World E) (columns : pyval)
    (kwargs : kwargs_t) (files : list FileParser.t) (loaded : list (Loaded E))
    (dfs : list (DataFrame E)) (schema : option (Schema E)) :
  Forall2 (fun f r => load_one E w columns kwargs f = Ok r) files loaded →
  load_each E w columns kwargs files dfs schema
  = Ok (dfs ++ loaded.*1, foldl (fun _ r => r.2) schema loaded).
Proof.
  intros H. revert dfs schema.
  induction H as [|f [df s] files loaded Hf _ IH]; intros dfs schema; cbn.
  - by rewrite app_nil_r.
  - rewrite Hf. cbn. rewrite IH. by rewrite <- app_assoc.
Qed.

(** C7: when the enumeration ends normally and every file loads, the
    frames are handed to [pd.concat] in the order of the enumeration and
    the table is built from their concatenation and the schema that the
    loader returned for the last file. *)
Theorem load_concat_last_schema (E : Collaborators) (fuel : nat) (w : World E)
    (uri : UriArg) (format_hint : option string) (columns : pyval)
    (fs : option (FileSystem (World E))) (kwargs : kwargs_t)
    (fp files : list FileParser.t) (loaded : list (Loaded E))
    (df : DataFrame E) (schema : option (Schema E)) :
  comprehension (fun u => FileParser.__init__ u format_hint) (uri_list uri) = Ok fp →
  _get_single_files E fuel (default (FileSystem_default E) fs) w fp = (files, Exhausted) →
  Forall2 (fun f r => load_one E w columns kwargs f = Ok r) files (loaded ++ [(df, schema)]) →
  load_df E fuel w uri format_hint columns fs kwargs
  = Some (pdf ← pd_concat_nonempty E (loaded.*1 ++ [df]); PandasDataFrame E pdf schema).
Proof.
  intros Hfp Hfiles Hload. unfold load_df. rewrite Hfp, Hfiles.
  rewrite (load_each_Ok E w columns kwargs files _ [] None Hload).
  rewrite fmap_app, foldl_app. cbn [app fmap list_fmap foldl fst snd].
  unfold pd_concat. by destruct (loaded.*1 ++ [df]) eqn:Hl; [destruct (loaded.*1)|].
Qed.

Lemma load_concat_last_schema_witness :
  load_df InMemory.env 2 InMemory.sample (UriStr "d/*.csv") None
    (VList [VStr "a"; VStr "b"]) None ∅
  = Some (Ok (InMemory.mkFrame ["a"; "b"] [["1"; "2"]; ["3"; "4"]; ["5"; "6"]], None)).
Proof.
  rewrite (load_concat_last_schema InMemory.env 2 InMemory.sample (UriStr "d/*.csv") None
             (VList [VStr "a"; VStr "b"]) None ∅
             [FileParser.mk (Py.mkParseResult "" "" "d" "" "" "") "*.csv" "d/*.csv" "csv"]
             [FileParser.mk (Py.mkParseResult "" "" "d/a.csv" "" "" "") "" "d/a.csv" "csv";
              FileParser.mk (Py.mkParseResult "" "" "d/b.csv" "" "" "") "" "d/b.csv" "csv"]
             [(InMemory.mkFrame ["a"; "b"] [["1"; "2"]; ["3"; "4"]], None)]
             (InMemory.mkFrame ["a"; "b"] [["5"; "6"]]) None).
  - reflexivity.
  - reflexivity.
  - vm_compute. reflexivity.
  - repeat constructor.
Defined.

(** C9: with an empty list of paths, or when the enumeration ends
    normally without a file, [load_df] raises the [ValueError] of
    [pd.concat] on an empty list. *)
Theorem load_nothing_raises (E : Collaborators) (fuel : nat) (w : World E)
    (uri : UriArg) (format_hint : option string) (columns : pyval)
    (fs : option (FileSystem (World E))) (kwargs : kwargs_t)
    (fp : list FileParser.t) :
  comprehension (fun u => FileParser.__init__ u format_hint) (uri_list uri) = Ok fp →
  _get_single_files E fuel (default (FileSystem_default E) fs) w fp = ([], Exhausted) →
  load_df E fuel w uri format_hint columns fs kwargs
  = Some (Raise (ValueError "No objects to concatenate"))
  ∧ load_df E (S fuel) w (UriList []) format_hint columns fs kwargs
    = Some (Raise (ValueError "No objects to concatenate")).
Proof.
  intros Hfp Hfiles. split.
  - unfold load_df. by rewrite Hfp, Hfiles.
  - reflexivity.
Qed.

Lemma load_nothing_raises_witness :
  load_df InMemory.env 2 InMemory.sample (UriStr "d/*.json") None VNone None ∅
  = Some (Raise (ValueError "No objects to concatenate"))
  ∧ load_df InMemory.env 3 InMemory.sample (UriList []) None VNone None ∅
    = Some (Raise (ValueError "No objects to concatenate")).
Proof.
  apply (load_nothing_raises InMemory.env 2 InMemory.sample (UriStr "d/*.json") None
           VNone None ∅
           [FileParser.mk (Py.mkParseResult "" "" "d" "" "" "") "*.json" "d/*.json" "json"]).
  - reflexivity.
  - vm_compute. reflexivity.
Defined.

(** ** Glob expansion *)

Lemma get_single_files_cons (E : Collaborators) (fuel : nat)
    (fs : FileSystem (World E)) (w : World E) (f : FileParser.t)
    (rest : list FileParser.t) :
  _get_single_files E (S fuel) fs w (f :: rest)
  = gen_then
      (if Py.nonempty (FileParser.glob_pattern f) then
         match
           xs ← fs_glob fs w (FileParser.uri f) (FileParser.glob_pattern f);
           comprehension (reparse f) xs
         with
         | Raise e => ([], Raised e)
         | Ok files => _get_single_files E fuel fs w files
         end
       else if fs_isdir fs w (FileParser.uri f) then
         match fs_filterdir fs w (FileParser.uri f) ["*." +:+ FileParser.file_format f] with
         | Raise e => ([], Raised e)
         | Ok names =>
             yield_each
               (fun x => FileParser.__init__ (Py.os_path_join (FileParser.uri f) x) None)
               names
         end
       else ([f], Exhausted))
      (_get_single_files E (S fuel) fs w rest).
Proof. reflexivity. Qed.

Lemma nonempty_true (s : string) : s ≠ "" → Py.nonempty s = true.
Proof. unfold Py.nonempty. by destruct (String.eqb_spec s ""). Qed.

Lemma comprehension_Ok {A B} (f : A → Result B) (xs : list A) (ys : list B) :
  comprehension f xs = Ok ys → Forall2 (fun x y => f x = Ok y) xs ys.
Proof.
  revert ys. induction xs as [|x xs IH]; intros ys; cbn.
  - intros [= <-]. constructor.
  - intros H. apply bind_Ok in H as (y & Hy & H).
    apply bind_Ok in H as (ys' & Hys & [= <-]). constructor; auto.
Qed.

(** A comprehension raises what its first failing element raises. *)
Lemma comprehension_Raise {A B} (f : A → Result B) (good more : list A) (x : A) (e : exn) :
  (∀ y, y ∈ good → ∃ b, f y = Ok b) → f x = Raise e →
  comprehension f (good ++ x :: more) = Raise e.
Proof.
  intros Hgood Hx. induction good as [|y good IH]; cbn.
  - by rewrite Hx.
  - destruct (Hgood y) as [b ->]; [by left|]. cbn.
    rewrite IH; [done|]. intros z Hz. apply Hgood. by right.
Qed.

(** C10: in the glob case each match is parsed again from
    [os.path.join(f.uri, os.path.basename(x.path))] without a hint,
    whatever the format of [f] is: the files that go on into the
    enumeration carry the format of their own suffix, and the first match
    whose suffix ends in no registered suffix ends the enumeration with
    [NotImplementedError] before anything is yielded. *)
Theorem glob_matches_reparsed (E : Collaborators) (fuel : nat)
    (fs : FileSystem (World E)) (w : World E) (f : FileParser.t)
    (rest : list FileParser.t) (xs : list string) :
  FileParser.glob_pattern f ≠ "" →
  fs_glob fs w (FileParser.uri f) (FileParser.glob_pattern f) = Ok xs →
  (∀ files, comprehension (reparse f) xs = Ok files →
     _get_single_files E (S fuel) fs w (f :: rest)
     = gen_then (_get_single_files E fuel fs w files)
         (_get_single_files E (S fuel) fs w rest)
     ∧ Forall (fun q => FileParser.resolve_format (FileParser.path q) None
                        = Ok (FileParser.file_format q)) files)
  ∧ (∀ good x more uri g p,
       xs = good ++ x :: more →
       (∀ y, y ∈ good → ∃ q, reparse f y = Ok q) →
       FileParser.locate (Py.os_path_join (FileParser.uri f) (Py.os_path_basename x))
       = Ok (uri, g, p) →
       (∀ k, k ∈ _FORMAT_MAP.*1 → Py.endswith (FileParser.suffix_of p) k = false) →
       _get_single_files E (S fuel) fs w (f :: rest)
       = ([], Raised (NotImplementedError (FileParser.suffix_of p +:+ " is not supported")))).
Proof.
  intros Hglob Hxs. split.
  - intros files Hfiles. split.
    + rewrite get_single_files_cons, (nonempty_true _ Hglob), Hxs.
      cbn [mbind Result_bind]. by rewrite Hfiles.
    + apply comprehension_Ok in Hfiles.
      clear Hxs. induction Hfiles as [|x q xs' files' Hq _ IH]; [constructor|].
      constructor; [|done]. by apply init_Ok in Hq as [_ Hq].
  - intros good x more uri g p -> Hgood Hloc Hsuffix.
    rewrite get_single_files_cons, (nonempty_true _ Hglob), Hxs.
    cbn [mbind Result_bind].
    rewrite (comprehension_Raise (reparse f) good more x
               (NotImplementedError (FileParser.suffix_of p +:+ " is not supported")));
      [done|done|].
    unfold reparse. rewrite (init_of_locate _ None uri g p Hloc).
    by rewrite resolve_format_unregistered.
Qed.

Lemma glob_matches_reparsed_witness :
  (∃ f, FileParser.__init__ "d/*" (Some "csv") = Ok f
        ∧ FileParser.file_format f = "csv"
        ∧ _get_single_files InMemory.env 2 InMemory.fs InMemory.sample [f]
          = ([], Raised (NotImplementedError ".xyz is not supported"))).
Proof.
  exists (FileParser.mk (Py.mkParseResult "" "" "d" "" "" "") "*" "d/*" "csv").
  split; [reflexivity|]. split; [reflexivity|].
  refine (proj2 (glob_matches_reparsed InMemory.env 1 InMemory.fs InMemory.sample _ []
                   ["/a.csv"; "/b.csv"; "/c.xyz"] _ _)
            ["/a.csv"; "/b.csv"] "/c.xyz" []
            (Py.mkParseResult "" "" "d/c.xyz" "" "" "") "" "d/c.xyz" _ _ _ _).
  - discriminate.
  - reflexivity.
  - reflexivity.
  - intros y Hy.
    repeat (apply elem_of_cons in Hy as [-> | Hy]; [by eexists|]).
    by apply elem_of_nil in Hy.
  - reflexivity.
  - intros k Hk. cbn in Hk.
    repeat (apply elem_of_cons in Hk as [-> | Hk]; [reflexivity|]).
    by apply elem_of_nil in Hk.
Defined.

(** A hint given for the glob path is not the format of the files it
    expands to: here the hint is [json] and the files come out as [csv]. *)
Example glob_hint_not_propagated :
  ∃ f, FileParser.__init__ "d/*.csv" (Some "json") = Ok f
       ∧ FileParser.file_format f = "json"
       ∧ (FileParser.file_format <$>
            (_get_single_files InMemory.env 2 InMemory.fs InMemory.sample [f]).1)
         = ["csv"; "csv"].
Proof.
  exists (FileParser.mk (Py.mkParseResult "" "" "d" "" "" "") "*.csv" "d/*.csv" "json").
  split; [reflexivity|]. split; [reflexivity|]. vm_compute. reflexivity.
Qed.

(** * Further properties *)

(** ** The parser on literal and on glob paths *)

Lemma slice_to_app (a b : string) : Py.slice_to (Py.len a) (a +:+ b) = a.
Proof.
  unfold Py.len. induction a as [|c a IH]; [by destruct b|].
  rewrite app_cons. cbn. by rewrite IH.
Qed.


Lemma slice_from_after (a b : string) (x : ascii) :
  Py.slice_from (S (Py.len a)) (a +:+ String x b) = b.
Proof.
  unfold Py.len. induction a as [|d a IH]; [reflexivity|].
  rewrite app_cons. exact IH.
Qed.

Lemma slice_to_all (s : string) : Py.slice_to (Py.len s) s = s.
Proof. unfold Py.len. induction s as [|c s IH]; [done|]. cbn. by rewrite IH. Qed.

Lemma slice_from_past (s : string) (n : nat) : Py.len s ≤ n → Py.slice_from n s = "".
Proof.
  unfold Py.len. revert n. induction s as [|c s IH]; intros [|n]; cbn; try done; try lia.
  intros H. apply IH. lia.
Qed.

(** Over a segment without separator and without glob character the
    scan keeps [last]; the glob character after it ends the scan. *)
Lemma scan_segment (seg rest : string) (c : ascii) (i l0 : nat) :
  Py.any_chars FileParser.is_sep seg = false →
  Py.any_chars FileParser.is_glob seg = false →
  FileParser.is_glob c = true →
  FileParser.scan (seg +:+ String c rest) i l0 = (l0, true).
Proof.
  intros Hsep Hglob Hc. revert i Hsep Hglob.
  induction seg as [|d seg IH]; intros i.
  - intros _ _. by rewrite app_empty, scan_cons, Hc, (glob_is_not_sep c Hc).
  - rewrite !any_chars_cons.
    intros [Hd1 Hs]%orb_false_iff [Hd2 Hg]%orb_false_iff.
    rewrite app_cons, scan_cons, Hd1, Hd2. by apply IH.
Qed.

(** X1: a path without [*] and [?] that parses has an empty
    [glob_pattern], passes [assert_no_glob] unchanged, and its [path] is the
    path component of [urlparse] applied to the whole input. *)
Theorem literal_path_no_glob (path : string) (hint : option string) (ps : FileParser.t) :
  Py.any_chars FileParser.is_glob path = false →
  FileParser.__init__ path hint = Ok ps →
  FileParser.glob_pattern ps = ""
  ∧ FileParser.assert_no_glob ps = Ok ps
  ∧ Py.urlparse path = Ok (FileParser._uri ps)
  ∧ FileParser.path ps = Py.path (FileParser._uri ps).
Proof.
  intros Hlit Hinit. apply init_Ok in Hinit as [Hloc _].
  unfold FileParser.locate in Hloc.
  pose proof (scan_no_glob path 0 (Py.len path) Hlit) as Hscan.
  destruct (FileParser.scan _ _ _) as [last has_glob]. cbn in Hscan. subst has_glob.
  cbn in Hloc. apply bind_Ok in Hloc as (u & Hu & [= Eu Eg Ep]).
  unfold FileParser.glob_pattern, FileParser.path, FileParser.assert_no_glob.
  rewrite <- Eg, <- Ep, <- Eu. repeat split; try done.
  unfold FileParser.glob_pattern. by rewrite <- Eg.
Qed.

Lemma literal_path_no_glob_witness :
  ∃ ps, FileParser.__init__ "s3://bucket/d/a.json.gz" None = Ok ps
        ∧ FileParser.glob_pattern ps = ""
        ∧ FileParser.assert_no_glob ps = Ok ps
        ∧ FileParser.path ps = "/d/a.json.gz".
Proof.
  destruct (FileParser.__init__ "s3://bucket/d/a.json.gz" None) as [ps|e] eqn:Hps;
    [|discriminate Hps].
  exists ps.
  destruct (literal_path_no_glob "s3://bucket/d/a.json.gz" None ps eq_refl Hps)
    as (Hg & Ha & Hu & Hp).
  split; [done|]. split; [done|]. split; [done|].
  rewrite Hp. by injection Hps as <-.
Defined.

(** X2: in a path where a separator is followed by a segment without
    separator that runs into the first glob character, the text before
    that separator is what [urlparse] is given, and the text after it is
    the [glob_pattern]. *)
Theorem glob_path_split (dir seg rest : string) (sep c : ascii) :
  Py.any_chars FileParser.is_glob dir = false →
  FileParser.is_sep sep = true →
  Py.any_chars FileParser.is_sep seg = false →
  Py.any_chars FileParser.is_glob seg = false →
  FileParser.is_glob c = true →
  FileParser.locate (dir +:+ String sep (seg +:+ String c rest))
  = (uri ← Py.urlparse dir;
     Ok (uri, seg +:+ String c rest,
         Py.os_path_join (Py.path uri) (seg +:+ String c rest))).
Proof.
  intros Hdir Hsep Hseg1 Hseg2 Hc. unfold FileParser.locate.
  rewrite scan_past_separator by done.
  rewrite (scan_segment seg rest c _ _ Hseg1 Hseg2 Hc). cbn [negb Nat.add].
  rewrite slice_to_app.
  replace (Py.len dir + 1) with (S (Py.len dir)) by lia.
  by rewrite slice_from_after.
Qed.

Lemma glob_path_split_witness :
  FileParser.locate "s3://bucket/data/part-*.parquet"
  = Ok (Py.mkParseResult "s3" "bucket" "/data" "" "" "", "part-*.parquet",
        "/data/part-*.parquet").
Proof.
  exact (glob_path_split "s3://bucket/data" "part-" ".parquet" "/" "*"
           eq_refl eq_refl eq_refl eq_refl eq_refl).
Defined.

(** X3: when no separator comes before the first glob character, the
    whole input goes to [urlparse] and the [glob_pattern] is empty. *)
Theorem glob_without_separator (seg rest : string) (c : ascii) :
  Py.any_chars FileParser.is_sep seg = false →
  Py.any_chars FileParser.is_glob seg = false →
  FileParser.is_glob c = true →
  FileParser.locate (seg +:+ String c rest)
  = (uri ← Py.urlparse (seg +:+ String c rest);
     Ok (uri, "", Py.os_path_join (Py.path uri) "")).
Proof.
  intros Hseg1 Hseg2 Hc. unfold FileParser.locate.
  rewrite (scan_segment seg rest c _ _ Hseg1 Hseg2 Hc). cbn [negb].
  rewrite slice_to_all, slice_from_past by lia. reflexivity.
Qed.

Lemma glob_without_separator_witness :
  FileParser.locate "part-*.csv"
  = Ok (Py.mkParseResult "" "" "part-*.csv" "" "" "", "", "part-*.csv/").
Proof.
  exact (glob_without_separator "part-" ".csv" "*" eq_refl eq_refl eq_refl).
Defined.

(** ** The format of a parsed path *)

Lemma slice_from_empty (n : nat) : Py.slice_from n "" = "".
Proof. by destruct n. Qed.

Lemma slice_from_add (a b : nat) (s : string) :
  Py.slice_from a (Py.slice_from b s) = Py.slice_from (a + b) s.
Proof.
  revert s. induction b as [|b IH]; intros s.
  - by rewrite Nat.add_0_r.
  - rewrite Nat.add_succ_r. destruct s as [|c s]; cbn.
    + by rewrite !slice_from_empty.
    + apply IH.
Qed.

(** Of two suffixes of one string, the shorter is a suffix of the longer. *)
Lemma endswith_nested (s k1 k2 : string) :
  Py.endswith s k1 = true → Py.endswith s k2 = true →
  Py.len k1 ≤ Py.len k2 → Py.endswith k2 k1 = true.
Proof.
  unfold Py.endswith.
  intros [L1 E1]%andb_true_iff [L2 E2]%andb_true_iff Hle.
  apply Nat.leb_le in L1, L2. apply String.eqb_eq in E1, E2.
  apply andb_true_iff. split; [by apply Nat.leb_le|]. apply String.eqb_eq.
  rewrite <- E2 at 2. rewrite slice_from_add.
  replace (Py.len k2 - Py.len k1 + (Py.len s - Py.len k2)) with (Py.len s - Py.len k1)
    by lia.
  done.
Qed.

Lemma endswith_compatible (s k1 k2 : string) :
  Py.endswith s k1 = true → Py.endswith s k2 = true →
  Py.endswith k1 k2 || Py.endswith k2 k1 = true.
Proof.
  intros H1 H2. apply orb_true_iff.
  destruct (Nat.le_ge_cases (Py.len k1) (Py.len k2)); eauto using endswith_nested.
Qed.

Ltac registry_case H :=
  repeat (match goal with
          | |- context [if Py.endswith ?s ?k then _ else _] =>
              let E := fresh "E" in
              destruct (Py.endswith s k) eqn:E;
              [ first [ reflexivity
                      | exfalso;
                        let X := fresh "X" in
                        pose proof (endswith_compatible _ _ _ E H) as X;
                        vm_compute in X; discriminate X ] | ]
          end);
  congruence.

(** X4: format inference does not depend on the order of the registry:
    whenever the compound suffix ends in a registered suffix, the format
    found is the one registered for that suffix. *)
Theorem registry_match_unambiguous (p k v : string) :
  (k, v) ∈ _FORMAT_MAP →
  Py.endswith (FileParser.suffix_of p) k = true →
  FileParser.resolve_format p None = Ok v.
Proof.
  intros Hin H. unfold FileParser.resolve_format, _FORMAT_MAP in *.
  cbn [List.find fst].
  repeat (apply elem_of_cons in Hin as [[= -> ->] | Hin]; [registry_case H|]).
  by apply elem_of_nil in Hin.
Qed.

Lemma registry_match_unambiguous_witness :
  FileParser.resolve_format "/data/Part.0.AVRO.GZ" None = Ok "avro".
Proof.
  apply (registry_match_unambiguous "/data/Part.0.AVRO.GZ" ".avro.gz" "avro").
  - cbn. repeat constructor.
  - reflexivity.
Defined.

Lemma lower_char_idempotent (c : ascii) :
  Py.lower_char (Py.lower_char c) = Py.lower_char c.
Proof. by destruct c as [[] [] [] [] [] [] [] []]. Qed.

Lemma lower_idempotent (s : string) : Py.lower (Py.lower s) = Py.lower s.
Proof.
  induction s as [|c s IH]; [done|]. cbn. by rewrite lower_char_idempotent, IH.
Qed.

(** X5: the format does not depend on the case of the path: the
    lower-cased path resolves to the same format, or to the same error. *)
Theorem resolve_format_ignores_case (p : string) (hint : option string) :
  FileParser.resolve_format (Py.lower p) hint = FileParser.resolve_format p hint.
Proof.
  unfold FileParser.resolve_format, FileParser.suffix_of.
  by rewrite lower_idempotent.
Qed.

(** X6: a recognized hint is the format, whatever the suffix of the
    path is. *)
Theorem hint_overrides_suffix (path h : string) (uri : Py.ParseResult) (g p : string) :
  h ≠ "" → Py.str_mem h _FORMAT_MAP_values = true →
  FileParser.locate path = Ok (uri, g, p) →
  FileParser.__init__ path (Some h) = Ok (FileParser.mk uri g p h).
Proof.
  intros Hne Hmem Hloc.
  by rewrite (init_of_locate path _ uri g p Hloc), resolve_format_hint.
Qed.

Lemma hint_overrides_suffix_witness :
  FileParser.__init__ "a.csv" (Some "parquet")
  = Ok (FileParser.mk (Py.mkParseResult "" "" "a.csv" "" "" "") "" "a.csv" "parquet").
Proof.
  apply hint_overrides_suffix; [discriminate | reflexivity | reflexivity].
Defined.

Lemma loader_registered (E : Collaborators) (fmt : string) :
  fmt ∈ ["csv"; "parquet"; "json"; "avro"] →
  ∃ loader, table_getitem (_FORMAT_LOAD E) fmt = Ok loader.
Proof.
  intros H. repeat (apply elem_of_cons in H as [-> | H]; [by eexists|]).
  by apply elem_of_nil in H.
Qed.

(** X7: the format of every parser that [__init__] returns has a
    loader and a saver: the two dispatch tables never raise [KeyError]. *)
Theorem parsed_format_dispatch (E : Collaborators) (path : string)
    (hint : option string) (ps : FileParser.t) :
  FileParser.__init__ path hint = Ok ps →
  (∃ loader, table_getitem (_FORMAT_LOAD E) (FileParser.file_format ps) = Ok loader)
  ∧ (∃ saver, table_getitem (_FORMAT_SAVE E) (FileParser.file_format ps) = Ok saver).
Proof.
  intros [_ H]%init_Ok. apply resolve_format_registered in H.
  split; [by apply loader_registered | by apply saver_registered].
Qed.

Lemma parsed_format_dispatch_witness :
  (∃ loader, table_getitem (_FORMAT_LOAD InMemory.env) "json" = Ok loader)
  ∧ (∃ saver, table_getitem (_FORMAT_SAVE InMemory.env) "json" = Ok saver).
Proof.
  exact (parsed_format_dispatch InMemory.env "d/*.json.gz" None
           (FileParser.mk (Py.mkParseResult "" "" "d" "" "" "") "*.json.gz"
              "d/*.json.gz" "json") eq_refl).
Defined.

(** ** [save_df] before it writes *)

(** X8: a [mode] other than [overwrite] and [error] is refused with
    [NotImplementedError] before the path is parsed and before any call
    on the file system. *)
Theorem save_invalid_mode (E : Collaborators) (df : LocalDataFrame E)
    (uri : string) (format_hint : option string) (mode : string)
    (fs : option (FileSystem (World E))) (kwargs : kwargs_t) (st : State E) :
  mode ≠ "overwrite" → mode ≠ "error" →
  save_df E df uri format_hint mode fs kwargs st
  = (Raise (NotImplementedError (mode +:+ " is not supported")), st).
Proof.
  intros H1%String.eqb_neq H2%String.eqb_neq. unfold save_df.
  unfold mbind at 1, M_bind at 1. cbn [lift Py.str_mem existsb].
  by rewrite H1, H2.
Qed.

Lemma save_invalid_mode_witness :
  run (save_df InMemory.env InMemory.table "*/?" (Some "xyz") "append" None ∅)
      InMemory.sample
  = (Raise (NotImplementedError "append is not supported"),
     mkState InMemory.env InMemory.sample []).
Proof.
  apply (save_invalid_mode InMemory.env InMemory.table "*/?" (Some "xyz") "append");
    discriminate.
Defined.

(** X9: when the destination does not parse, or parses as a glob, the
    save raises that error without any call on the file system. *)
Theorem save_unparsed_destination (E : Collaborators) (df : LocalDataFrame E)
    (uri : string) (format_hint : option string) (mode : string)
    (fs : option (FileSystem (World E))) (kwargs : kwargs_t) (st : State E) (e : exn) :
  mode = "overwrite" ∨ mode = "error" →
  FileParser.__init__ uri format_hint ≫= FileParser.assert_no_glob = Raise e →
  save_df E df uri format_hint mode fs kwargs st = (Raise e, st).
Proof.
  intros Hmode Hp. unfold save_df.
  unfold mbind at 1, M_bind at 1.
  destruct Hmode as [-> | ->]; cbn [lift assert_or_throw Py.str_mem existsb];
    cbn [String.eqb Ascii.eqb Bool.eqb orb];
    unfold mbind at 1, M_bind at 1, lift at 1; by rewrite Hp.
Qed.

Lemma save_unparsed_destination_witness :
  run (save_df InMemory.env InMemory.table "d/*.csv" None "overwrite" None ∅)
      InMemory.sample
  = (Raise (AssertionError "d/*.csv has glob pattern"),
     mkState InMemory.env InMemory.sample [])
  ∧ run (save_df InMemory.env InMemory.table "out.txt" None "error" None ∅)
        InMemory.sample
    = (Raise (NotImplementedError ".txt is not supported"),
       mkState InMemory.env InMemory.sample []).
Proof.
  split.
  - apply (save_unparsed_destination InMemory.env InMemory.table "d/*.csv" None
             "overwrite"); [by left | reflexivity].
  - apply (save_unparsed_destination InMemory.env InMemory.table "out.txt" None
             "error"); [by right | reflexivity].
Defined.

(** X10: when the destination does not exist, neither [remove] nor
    [removetree] is called, in either mode: after the [exists] call the
    registered saver runs in the unchanged world. *)
Theorem save_absent_destination (E : Collaborators) (df : LocalDataFrame E)
    (uri : string) (format_hint : option string) (mode : string)
    (fs : option (FileSystem (World E))) (kwargs : kwargs_t)
    (p : FileParser.t) (st : State E) :
  mode = "overwrite" ∨ mode = "error" →
  FileParser.__init__ uri format_hint ≫= FileParser.assert_no_glob = Ok p →
  fs_exists (default (FileSystem_default E) fs) (world st) uri = false →
  ∃ saver,
    table_getitem (_FORMAT_SAVE E) (FileParser.file_format p) = Ok saver
    ∧ save_df E df uri format_hint mode fs kwargs st
      = saver df p kwargs (mkState E (world st) (trace st ++ [EvExists uri])).
Proof.
  intros Hmode Hp Hex.
  destruct (saver_registered E _ (parsed_format_registered _ _ _ Hp)) as [saver Hs].
  exists saver. split; [done|]. unfold save_df.
  unfold mbind at 1, M_bind at 1.
  destruct Hmode as [-> | ->]; cbn [lift assert_or_throw Py.str_mem existsb];
    cbn [String.eqb Ascii.eqb Bool.eqb orb];
    unfold mbind at 1, M_bind at 1, lift at 1; rewrite Hp;
    unfold mbind at 1, M_bind at 1, query at 1; rewrite Hex;
    unfold mbind, M_bind, lift, mret, M_ret; by rewrite Hs.
Qed.

Lemma save_absent_destination_witness :
  let r := run (save_df InMemory.env InMemory.table "new.json" None "error" None ∅)
             InMemory.sample in
  r.1 = Ok tt
  ∧ trace r.2 = [EvExists "new.json"; EvWrite "to_json" "new.json" ∅]
  ∧ InMemory.files (world r.2) !! "new.json" = Some [["a"; "b"]; ["1"; "2"]].
Proof.
  destruct (save_absent_destination InMemory.env InMemory.table "new.json" None "error"
              None ∅ _ (mkState InMemory.env InMemory.sample [])
              (or_intror eq_refl) eq_refl eq_refl) as (saver & Hs & H).
  injection Hs as <-. unfold run. rewrite H.
  split; [|split]; vm_compute; reflexivity.
Defined.

(** ** The enumeration *)

Lemma gen_then_nil {A} (g : Gen A) : gen_then ([], Exhausted) g = g.
Proof. by destruct g. Qed.

Lemma gen_then_assoc {A} (g1 g2 g3 : Gen A) :
  gen_then (gen_then g1 g2) g3 = gen_then g1 (gen_then g2 g3).
Proof.
  destruct g1 as [xs []], g2 as [ys []]; cbn; try done.
  by rewrite app_assoc.
Qed.

Lemma get_single_files_nil (E : Collaborators) (fuel : nat)
    (fs : FileSystem (World E)) (w : World E) :
  _get_single_files E (S fuel) fs w [] = ([], Exhausted).
Proof. reflexivity. Qed.

(** X11: parsers without glob pattern whose URI is not a directory are
    yielded as they are, in the order given. *)
Theorem enumerate_literal_files (E : Collaborators) (fuel : nat)
    (fs : FileSystem (World E)) (w : World E) (fp : list FileParser.t) :
  Forall (fun f => FileParser.glob_pattern f = ""
                   ∧ fs_isdir fs w (FileParser.uri f) = false) fp →
  _get_single_files E (S fuel) fs w fp = (fp, Exhausted).
Proof.
  induction 1 as [|f fp [Hg Hd] _ IH]; [done|].
  by rewrite get_single_files_cons, Hg, Hd, IH.
Qed.

Lemma enumerate_literal_files_witness :
  let a := FileParser.mk (Py.mkParseResult "" "" "d/a.csv" "" "" "") "" "d/a.csv" "csv" in
  let b := FileParser.mk (Py.mkParseResult "" "" "x.json" "" "" "") "" "x.json" "json" in
  _get_single_files InMemory.env 1 InMemory.fs InMemory.sample [a; b]
  = ([a; b], Exhausted).
Proof.
  intros a b.
  apply (enumerate_literal_files InMemory.env 0 InMemory.fs InMemory.sample [a; b]).
  repeat constructor.
Defined.

(** X12: the enumeration of a list of parsers is the enumeration of its
    front followed by that of its back; a front that raises or runs out
    of fuel ends it. *)
Theorem enumerate_app (E : Collaborators) (fuel : nat)
    (fs : FileSystem (World E)) (w : World E) (fp1 fp2 : list FileParser.t) :
  _get_single_files E (S fuel) fs w (fp1 ++ fp2)
  = gen_then (_get_single_files E (S fuel) fs w fp1)
      (_get_single_files E (S fuel) fs w fp2).
Proof.
  induction fp1 as [|f fp1 IH].
  - by rewrite get_single_files_nil, gen_then_nil.
  - rewrite <- app_comm_cons, !get_single_files_cons, IH.
    by rewrite gen_then_assoc.
Qed.

(** X13: an enumeration that did not run out of fuel is the same with
    any larger fuel. *)
Theorem enumerate_fuel_monotone (E : Collaborators) (fs : FileSystem (World E))
    (w : World E) (n m : nat) (fp : list FileParser.t) :
  (_get_single_files E n fs w fp).2 ≠ OutOfFuel →
  n ≤ m →
  _get_single_files E m fs w fp = _get_single_files E n fs w fp.
Proof.
  revert m fp. induction n as [|n IHn]; intros m fp Hend Hle; [done|].
  destruct m as [|m]; [lia|]. apply le_S_n in Hle.
  induction fp as [|f fp IHfp]; [done|].
  rewrite !get_single_files_cons in *.
  destruct (Py.nonempty (FileParser.glob_pattern f)).
  - destruct (_ ≫= _) as [files|e].
    + destruct (_get_single_files E n fs w files) as [xs en] eqn:Hn.
      assert (en ≠ OutOfFuel) as Hen by (by destruct en).
      rewrite (IHn m files) by (by rewrite Hn || done). rewrite Hn.
      destruct en; cbn in *; [|done|done]. by rewrite IHfp.
    + done.
  - destruct (fs_isdir fs w (FileParser.uri f)).
    + destruct (fs_filterdir _ _ _ _) as [names|e]; [|done].
      destruct (yield_each _ names) as [xs []]; cbn in *; [|done|done].
      by rewrite IHfp.
    + cbn in *. by rewrite IHfp.
Qed.

Lemma enumerate_fuel_monotone_witness :
  let f := FileParser.mk (Py.mkParseResult "" "" "d" "" "" "") "*.csv" "d/*.csv" "csv" in
  _get_single_files InMemory.env 7 InMemory.fs InMemory.sample [f]
  = _get_single_files InMemory.env 2 InMemory.fs InMemory.sample [f].
Proof.
  intros f.
  apply (enumerate_fuel_monotone InMemory.env InMemory.fs InMemory.sample 2 7);
    [discriminate | lia].
Defined.

Lemma yield_each_Ok {A B} (f : A → Result B) (xs : list A) (ys : list B) :
  Forall2 (fun x y => f x = Ok y) xs ys → yield_each f xs = (ys, Exhausted).
Proof.
  induction 1 as [|x y xs ys Hx _ IH]; [done|]. cbn. by rewrite Hx, IH.
Qed.

Lemma yield_each_Raise {A B} (f : A → Result B) (good more : list A) (x : A)
    (ys : list B) (e : exn) :
  Forall2 (fun x y => f x = Ok y) good ys → f x = Raise e →
  yield_each f (good ++ x :: more) = (ys, Raised e).
Proof.
  intros Hgood Hx. induction Hgood as [|z y good ys Hz _ IH]; cbn.
  - by rewrite Hx.
  - by rewrite Hz, IH.
Qed.

(** X14: for a parser without glob pattern whose URI is a directory,
    the entries that [filterdir] lists for [*.<format>] are parsed
    without a hint and yielded one by one: if all parse, the enumeration
    goes on with the rest; if one does not, those before it have been
    yielded when its error ends the enumeration. *)
Theorem enumerate_directory (E : Collaborators) (fuel : nat)
    (fs : FileSystem (World E)) (w : World E) (f : FileParser.t)
    (rest : list FileParser.t) (names : list string) :
  FileParser.glob_pattern f = "" →
  fs_isdir fs w (FileParser.uri f) = true →
  fs_filterdir fs w (FileParser.uri f) ["*." +:+ FileParser.file_format f] = Ok names →
  (∀ qs,
     Forall2 (fun x q => FileParser.__init__ (Py.os_path_join (FileParser.uri f) x) None
                         = Ok q) names qs →
     _get_single_files E (S fuel) fs w (f :: rest)
     = gen_then (qs, Exhausted) (_get_single_files E (S fuel) fs w rest))
  ∧ (∀ good x more qs e,
       names = good ++ x :: more →
       Forall2 (fun x q => FileParser.__init__ (Py.os_path_join (FileParser.uri f) x) None
                           = Ok q) good qs →
       FileParser.__init__ (Py.os_path_join (FileParser.uri f) x) None = Raise e →
       _get_single_files E (S fuel) fs w (f :: rest) = (qs, Raised e)).
Proof.
  intros Hg Hd Hnames. split.
  - intros qs Hqs.
    by rewrite get_single_files_cons, Hg, Hd, Hnames, (yield_each_Ok _ _ _ Hqs).
  - intros good x more qs e -> Hgood Hx.
    by rewrite get_single_files_cons, Hg, Hd, Hnames,
         (yield_each_Raise _ _ _ _ _ _ Hgood Hx).
Qed.

Lemma enumerate_directory_witness :
  let w := InMemory.mkWorld ∅ {[ "d" := ["a.csv"; ".csv"; "b.csv"] ]} false in
  let d := FileParser.mk (Py.mkParseResult "" "" "d" "" "" "") "" "d" "csv" in
  _get_single_files InMemory.env 1 InMemory.fs w [d]
  = ([FileParser.mk (Py.mkParseResult "" "" "d/a.csv" "" "" "") "" "d/a.csv" "csv"],
     Raised (NotImplementedError " is not supported")).
Proof.
  intros w d.
  refine (proj2 (enumerate_directory InMemory.env 0 InMemory.fs w d []
                   ["a.csv"; ".csv"; "b.csv"] eq_refl _ _)
            ["a.csv"] ".csv" ["b.csv"] _ _ eq_refl _ _).
  - vm_compute. reflexivity.
  - vm_compute. reflexivity.
  - repeat constructor.
  - reflexivity.
Defined.

(** ** [load_df] *)

Lemma load_each_Raise (E : Collaborators) (w : World E) (columns : pyval)
    (kwargs : kwargs_t) (good more : list FileParser.t) (f : FileParser.t)
    (loaded : list (Loaded E)) (dfs : list (DataFrame E))
    (schema : option (Schema E)) (e : exn) :
  Forall2 (fun f r => load_one E w columns kwargs f = Ok r) good loaded →
  load_one E w columns kwargs f = Raise e →
  load_each E w columns kwargs (good ++ f :: more) dfs schema = Raise e.
Proof.
  intros Hgood Hf. revert dfs schema.
  induction Hgood as [|g [df s] good loaded Hg _ IH]; intros dfs schema; cbn.
  - by rewrite Hf.
  - rewrite Hg. cbn. apply IH.
Qed.

(** X15: the paths are all parsed before anything is enumerated: the
    first path that does not parse gives the error of [load_df], whatever
    the file system holds. *)
Theorem load_unparsed_path (E : Collaborators) (fuel : nat) (w : World E)
    (uri : UriArg) (format_hint : option string) (columns : pyval)
    (fs : option (FileSystem (World E))) (kwargs : kwargs_t)
    (good more : list string) (u : string) (e : exn) :
  uri_list uri = good ++ u :: more →
  (∀ y, y ∈ good → ∃ q, FileParser.__init__ y format_hint = Ok q) →
  FileParser.__init__ u format_hint = Raise e →
  load_df E fuel w uri format_hint columns fs kwargs = Some (Raise e).
Proof.
  intros Huris Hgood Hu. unfold load_df.
  by rewrite Huris, (comprehension_Raise _ good more u e Hgood Hu).
Qed.

Lemma load_unparsed_path_witness :
  load_df InMemory.env 0 InMemory.sample (UriList ["d/a.csv"; "d/c.xyz"; "d/b.csv"])
    None VNone None ∅
  = Some (Raise (NotImplementedError ".xyz is not supported")).
Proof.
  apply (load_unparsed_path InMemory.env 0 InMemory.sample
           (UriList ["d/a.csv"; "d/c.xyz"; "d/b.csv"]) None VNone None ∅
           ["d/a.csv"] ["d/b.csv"] "d/c.xyz").
  - reflexivity.
  - intros y Hy. apply elem_of_cons in Hy as [-> | Hy]; [by eexists|].
    by apply elem_of_nil in Hy.
  - reflexivity.
Defined.

(** X16: the files are loaded as they are yielded: when the loader of a
    yielded file raises, that is the error of [load_df], also if the
    enumeration would have raised, or gone on, after that file. *)
Theorem load_loader_failure (E : Collaborators) (fuel : nat) (w : World E)
    (uri : UriArg) (format_hint : option string) (columns : pyval)
    (fs : option (FileSystem (World E))) (kwargs : kwargs_t)
    (fp good more : list FileParser.t) (f : FileParser.t) (ending : Ending)
    (loaded : list (Loaded E)) (e : exn) :
  comprehension (fun u => FileParser.__init__ u format_hint) (uri_list uri) = Ok fp →
  _get_single_files E fuel (default (FileSystem_default E) fs) w fp
  = (good ++ f :: more, ending) →
  Forall2 (fun f r => load_one E w columns kwargs f = Ok r) good loaded →
  load_one E w columns kwargs f = Raise e →
  load_df E fuel w uri format_hint columns fs kwargs = Some (Raise e).
Proof.
  intros Hfp Hfiles Hgood Hf. unfold load_df. rewrite Hfp, Hfiles.
  by rewrite (load_each_Raise E w columns kwargs good more f loaded [] None e).
Qed.

Lemma load_loader_failure_witness :
  load_df InMemory.env 2 InMemory.sample (UriStr "d/*") (Some "csv") VNone None ∅
  = Some (Raise (NotImplementedError ".xyz is not supported"))
  ∧ load_df InMemory.env 2 InMemory.sample (UriList ["d/a.csv"; "d/*"]) (Some "csv")
      VNone None ∅
    = Some (Raise (InvalidOperationError "columns must be set if without header")).
Proof.
  split; [vm_compute; reflexivity|].
  apply (load_loader_failure InMemory.env 2 InMemory.sample
           (UriList ["d/a.csv"; "d/*"]) (Some "csv") VNone None ∅
           [FileParser.mk (Py.mkParseResult "" "" "d/a.csv" "" "" "") "" "d/a.csv" "csv";
            FileParser.mk (Py.mkParseResult "" "" "d" "" "" "") "*" "d/*" "csv"]
           [] []
           (FileParser.mk (Py.mkParseResult "" "" "d/a.csv" "" "" "") "" "d/a.csv" "csv")
           (Raised (NotImplementedError ".xyz is not supported")) []).
  - reflexivity.
  - vm_compute. reflexivity.
  - constructor.
  - vm_compute. reflexivity.
Defined.

(** X17: loading one path without glob pattern that is not a directory
    calls the loader of its format once and builds the table from
    [pd.concat] of that one frame and the loader's schema. *)
Theorem load_single_file (E : Collaborators) (fuel : nat) (w : World E)
    (u : string) (format_hint : option string) (columns : pyval)
    (fs : option (FileSystem (World E))) (kwargs : kwargs_t)
    (f : FileParser.t) (df : DataFrame E) (schema : option (Schema E)) :
  FileParser.__init__ u format_hint = Ok f →
  FileParser.glob_pattern f = "" →
  fs_isdir (default (FileSystem_default E) fs) w (FileParser.uri f) = false →
  load_one E w columns kwargs f = Ok (df, schema) →
  load_df E (S fuel) w (UriStr u) format_hint columns fs kwargs
  = Some (pdf ← pd_concat_nonempty E [df]; PandasDataFrame E pdf schema).
Proof.
  intros Hf Hg Hd Hload. unfold load_df. cbn [uri_list comprehension].
  rewrite Hf. cbn [mbind Result_bind].
  rewrite get_single_files_cons, Hg, Hd. cbn [Py.nonempty String.eqb negb gen_then fst snd app].
  cbn [load_each]. rewrite Hload. reflexivity.
Qed.

Lemma load_single_file_witness :
  load_df InMemory.env 1 InMemory.sample (UriStr "d/b.csv") None VNone None
    {[ "header" := VBool true ]}
  = Some (Ok (InMemory.mkFrame ["5"; "6"] [], None)).
Proof.
  apply (load_single_file InMemory.env 0 InMemory.sample "d/b.csv" None VNone None
           {[ "header" := VBool true ]}
           (FileParser.mk (Py.mkParseResult "" "" "d/b.csv" "" "" "") "" "d/b.csv" "csv")
           (InMemory.mkFrame ["5"; "6"] []) None).
  - reflexivity.
  - reflexivity.
  - reflexivity.
  - vm_compute. reflexivity.
Defined.

(** ** The codecs *)

(** X18: with a [header] option whose text is [True] or [0], [_load_csv]
    reads with [header=0] and then selects the columns; [infer_schema]
    and the caller's [header] are not passed to [read_csv], [index_col]
    is [False] unless the caller gives it, and [dtype] is [object] unless
    [infer_schema] is true, in which case it is the caller's. *)
Theorem load_csv_with_header (E : Collaborators) (w : World E) (p : FileParser.t)
    (columns : pyval) (kwargs : kwargs_t) (infer : bool) :
  ParamDict.get_bool kwargs "infer_schema" false = Ok infer →
  Py.str_mem (py_str (default (VBool false) (kwargs !! "header"))) ["True"; "0"] = true →
  ∃ options : kwargs_t,
    _load_csv E w p columns kwargs
    = (pdf ← pd_read_csv E w (FileParser.uri p) options; select_columns E pdf columns)
    ∧ options !! "header" = Some (VInt 0)
    ∧ options !! "index_col" = Some (default (VBool false) (kwargs !! "index_col"))
    ∧ options !! "infer_schema" = None
    ∧ options !! "dtype"
      = (if infer then kwargs !! "dtype" else Some (VObj "<class 'object'>")).
Proof.
  intros Hinfer Hheader. eexists. split; [|split; [|split; [|split]]].
  - rewrite (load_csv_options E w p columns kwargs infer Hinfer).
    unfold _load_csv_read. rewrite Hheader. reflexivity.
  - unfold dict_merge. rewrite lookup_union_r by apply lookup_delete_eq. reflexivity.
  - unfold dict_merge. rewrite lookup_union, !lookup_delete_ne by done.
    destruct infer; cbn [negb]; rewrite ?lookup_insert_ne by done;
      by destruct (kwargs !! "index_col").
  - unfold dict_merge. rewrite lookup_union, lookup_delete_ne by done.
    by rewrite lookup_delete_eq.
  - unfold dict_merge. rewrite lookup_union, !lookup_delete_ne by done.
    destruct infer; cbn [negb].
    + by destruct (kwargs !! "dtype").
    + by rewrite lookup_insert_eq.
Qed.

Lemma load_csv_with_header_witness :
  let p := FileParser.mk (Py.mkParseResult "" "" "d/a.csv" "" "" "") "" "d/a.csv" "csv" in
  _load_csv InMemory.env InMemory.sample p (VList [VStr "2"]) {[ "header" := VInt 0 ]}
  = Ok (InMemory.mkFrame ["2"] [["4"]], None).
Proof.
  intros p.
  destruct (load_csv_with_header InMemory.env InMemory.sample p (VList [VStr "2"])
              {[ "header" := VInt 0 ]} false)
    as (options & -> & Hh & _); [vm_compute; reflexivity | vm_compute; reflexivity |].
  unfold pd_read_csv, InMemory.env, InMemory.read. rewrite Hh.
  vm_compute. reflexivity.
Defined.

(** X19: with a list of names, [_load_parquet] passes the list as
    [columns] to [read_parquet] and returns no schema; with a structured
    schema it passes the names of the schema and returns the schema; the
    engine is [pyarrow] unless the caller gives one. *)
Theorem load_parquet_projection (E : Collaborators) (w : World E) (p : FileParser.t)
    (kwargs : kwargs_t) :
  kwargs !! "columns" = None →
  (∀ names, ∃ options : kwargs_t,
     _load_parquet E w p (VList names) kwargs
     = (pdf ← pd_read_parquet E w (FileParser.uri p) options; Ok (pdf, None))
     ∧ options !! "columns" = Some (VList names)
     ∧ options !! "engine" = Some (default (VStr "pyarrow") (kwargs !! "engine")))
  ∧ (∀ columns schema,
       columns ≠ VNone → (∀ l, columns ≠ VList l) →
       Schema_new E columns = Ok schema →
       ∃ options : kwargs_t,
         _load_parquet E w p columns kwargs
         = (pdf ← pd_read_parquet E w (FileParser.uri p) options; Ok (pdf, Some schema))
         ∧ options !! "columns" = Some (names_list E schema)
         ∧ options !! "engine" = Some (default (VStr "pyarrow") (kwargs !! "engine"))).
Proof.
  intros Hcols.
  assert (∀ v, keyword_args "read_parquet" [("columns", v)]
                 (dict_merge {[ "engine" := VStr "pyarrow" ]} kwargs)
               = Ok (dict_merge {[ "engine" := VStr "pyarrow" ]} kwargs
                     ∪ {[ "columns" := v ]})) as Hkw.
  { intros v. unfold keyword_args. cbn [fmap list_fmap fst List.find].
    assert (ParamDict.contains (dict_merge {[ "engine" := VStr "pyarrow" ]} kwargs)
              "columns" = false) as ->.
    { apply contains_false. unfold dict_merge.
      by rewrite lookup_union, Hcols, lookup_singleton_ne. }
    cbn [list_to_map foldr]. by rewrite insert_empty. }
  assert (∀ v, (dict_merge {[ "engine" := VStr "pyarrow" ]} kwargs ∪ {[ "columns" := v ]})
               !! "columns" = Some v) as Hc.
  { intros v. unfold dict_merge.
    rewrite !lookup_union, Hcols, lookup_singleton_ne, lookup_singleton_eq by done.
    reflexivity. }
  assert (∀ v, (dict_merge {[ "engine" := VStr "pyarrow" ]} kwargs
                ∪ ({[ "columns" := v ]} : kwargs_t))
               !! "engine" = Some (default (VStr "pyarrow") (kwargs !! "engine"))) as He.
  { intros v. unfold dict_merge.
    rewrite !lookup_union, lookup_singleton_eq, lookup_singleton_ne by done.
    by destruct (kwargs !! "engine"). }
  split.
  - intros names. eexists. split; [|split; [apply Hc | apply He]].
    unfold _load_parquet. by rewrite Hkw.
  - intros columns schema Hn Hl Hs. eexists. split; [|split; [apply Hc | apply He]].
    unfold _load_parquet. rewrite Hs. cbn [mbind Result_bind]. rewrite Hkw.
    destruct columns; try done. by destruct (Hl l).
Qed.

Lemma load_parquet_projection_witness :
  let p := FileParser.mk (Py.mkParseResult "" "" "d/a.csv" "" "" "") "" "d/a.csv" "parquet" in
  ∃ options : kwargs_t,
    _load_parquet InMemory.env InMemory.sample p (VDict [("1", VStr "int")]) ∅
    = (pdf ← InMemory.read InMemory.sample "d/a.csv" options; Ok (pdf, Some [("1", "int")]))
    ∧ options !! "columns" = Some (VList [VStr "1"]).
Proof.
  intros p.
  destruct (proj2 (load_parquet_projection InMemory.env InMemory.sample p
                     (∅ : kwargs_t) (lookup_empty _))
              (VDict [("1", VStr "int")]) [("1", "int")])
    as (options & H & Hc & _); [discriminate | discriminate | reflexivity |].
  exists options. split; [exact H | exact Hc].
Defined.

(** X20: the options of [_load_avro] have no effect: [process_record]
    is taken out of them and never applied, and nothing else is read from
    them; the result is the records read, with the columns selected. *)
Theorem load_avro_ignores_options (E : Collaborators) (w : World E)
    (p : FileParser.t) (columns : pyval) (kwargs kwargs' : kwargs_t) :
  _load_avro E w p columns kwargs = _load_avro E w p columns kwargs'
  ∧ _load_avro E w p columns kwargs
    = (pdf ← avro_read_records E w (FileParser.uri p); select_columns E pdf columns).
Proof. unfold _load_avro. by rewrite !discard_key. Qed.

(** X21: [_save_parquet] calls [to_parquet] once, with the engine
    [pyarrow] and the schema of the table unless the caller's options
    give [engine] or [schema]; every option of the caller is passed on. *)
Theorem save_parquet_options (E : Collaborators) (df : LocalDataFrame E)
    (p : FileParser.t) (kwargs : kwargs_t) (st : State E) :
  ∃ options : kwargs_t,
    _save_parquet E df p kwargs st
    = ((match (pdf_to_parquet E (world st) (as_pandas E df) (FileParser.uri p) options).1 with
        | Some e => Raise e
        | None => Ok tt
        end),
       mkState E (pdf_to_parquet E (world st) (as_pandas E df) (FileParser.uri p) options).2
         (trace st ++ [EvWrite "to_parquet" (FileParser.uri p) options]))
    ∧ options !! "engine" = Some (default (VStr "pyarrow") (kwargs !! "engine"))
    ∧ options !! "schema" = Some (default (pa_schema E df) (kwargs !! "schema"))
    ∧ ∀ k v, kwargs !! k = Some v → options !! k = Some v.
Proof.
  exists (dict_merge {[ "engine" := VStr "pyarrow"; "schema" := pa_schema E df ]} kwargs).
  split; [|split; [|split]].
  - unfold _save_parquet, command. by destruct (pdf_to_parquet _ _ _ _ _).
  - unfold dict_merge. rewrite lookup_union, lookup_insert_eq.
    by destruct (kwargs !! "engine").
  - unfold dict_merge.
    rewrite lookup_union, lookup_insert_ne, lookup_singleton_eq by done.
    by destruct (kwargs !! "schema").
  - intros k v Hk. unfold dict_merge. by apply lookup_union_Some_l.
Qed.

(** X22: [_save_avro] with a [schema] option that is not [None] and
    with [columns] that are truthy raises its [Exception] and writes
    nothing. *)
Theorem save_avro_schema_and_columns (E : Collaborators) (df : LocalDataFrame E)
    (p : FileParser.t) (columns schema : pyval) (kwargs : kwargs_t) (st : State E) :
  kwargs !! "schema" = Some schema →
  is_None schema = false →
  truthy columns = true →
  _save_avro E df p columns kwargs st
  = (Raise (PyException "set columns to None when schema is provided"), st).
Proof.
  intros Hs Hn Hc. unfold _save_avro, mbind, M_bind, lift, _save_avro_options.
  assert (ParamDict.contains kwargs "schema" = true) as ->.
  { apply contains_true. by rewrite Hs. }
  unfold ParamDict.getitem. rewrite Hs. cbn [mbind Result_bind].
  by rewrite Hn, Hc.
Qed.

Lemma save_avro_schema_and_columns_witness :
  run (save_df InMemory.env InMemory.table "new.avro" None "overwrite" None
         {[ "schema" := VDict [("type", VStr "record")];
            "columns" := VStr "a:int" ]}) InMemory.sample
  = (Raise (PyException "set columns to None when schema is provided"),
     mkState InMemory.env InMemory.sample [EvExists "new.avro"]).
Proof.
  pose proof (save_avro_schema_and_columns InMemory.env InMemory.table
                (FileParser.mk (Py.mkParseResult "" "" "new.avro" "" "" "") ""
                   "new.avro" "avro")
                (VStr "a:int") (VDict [("type", VStr "record")])
                {[ "schema" := VDict [("type", VStr "record")] ]}
                (mkState InMemory.env InMemory.sample [EvExists "new.avro"])
                (lookup_singleton_eq _ _) eq_refl eq_refl) as H.
  rewrite <- H. vm_compute. reflexivity.
Defined.

(** X23: without a header and with [columns] that are neither [None]
    nor a list, [_load_csv] builds the schema from [columns], reads with
    [header=None] and the names of the schema as [names], and returns the
    schema with the frame; a [columns] value that is no schema raises the
    error of [Schema] before anything is read. *)
Theorem load_csv_headerless_schema (E : Collaborators) (w : World E)
    (p : FileParser.t) (columns : pyval) (kwargs : kwargs_t) (infer : bool) :
  ParamDict.get_bool kwargs "infer_schema" false = Ok infer →
  is_None (default (VBool false) (kwargs !! "header"))
  || String.eqb (py_str (default (VBool false) (kwargs !! "header"))) "False" = true →
  columns ≠ VNone → (∀ l, columns ≠ VList l) →
  kwargs !! "names" = None →
  (∀ e, Schema_new E columns = Raise e → _load_csv E w p columns kwargs = Raise e)
  ∧ (∀ schema, Schema_new E columns = Ok schema →
       ∃ options : kwargs_t,
         _load_csv E w p columns kwargs
         = (pdf ← pd_read_csv E w (FileParser.uri p) options; Ok (pdf, Some schema))
         ∧ options !! "header" = Some VNone
         ∧ options !! "names" = Some (names_list E schema)).
Proof.
  intros Hinfer Hno Hn Hl Hnames.
  set (header := default (VBool false) (kwargs !! "header")) in *.
  assert (Py.str_mem (py_str header) ["True"; "0"] = false) as Hyes.
  { apply orb_true_iff in Hno as [H|H].
    - by destruct header.
    - apply String.eqb_eq in H. by rewrite H. }
  rewrite (load_csv_options E w p columns kwargs infer Hinfer).
  unfold _load_csv_read. fold header. rewrite Hyes, Hno.
  split.
  - intros e He. rewrite He. destruct columns; try done. by destruct (Hl l).
  - intros schema Hs. rewrite Hs. cbn [mbind Result_bind].
    eexists. split; [|split].
    + destruct columns; try done. by destruct (Hl l).
    + unfold dict_merge. rewrite lookup_union_r by apply lookup_delete_eq. reflexivity.
    + unfold dict_merge. rewrite lookup_union_r; [reflexivity|].
      rewrite !lookup_delete_ne by done.
      destruct (negb infer); [by rewrite lookup_insert_ne|done].
Qed.

Lemma load_csv_headerless_schema_witness :
  let p := FileParser.mk (Py.mkParseResult "" "" "d/b.csv" "" "" "") "" "d/b.csv" "csv" in
  _load_csv InMemory.env InMemory.sample p (VDict [("x", VStr "int"); ("y", VStr "str")]) ∅
  = Ok (InMemory.mkFrame ["x"; "y"] [["5"; "6"]], Some [("x", "int"); ("y", "str")])
  ∧ _load_csv InMemory.env InMemory.sample p (VStr "x:int") ∅
    = Raise (CollaboratorError "not a schema").
Proof.
  intros p.
  pose proof (load_csv_headerless_schema InMemory.env InMemory.sample p
                (VDict [("x", VStr "int"); ("y", VStr "str")]) (∅ : kwargs_t) false
                eq_refl eq_refl ltac:(discriminate) ltac:(discriminate)
                (lookup_empty _)) as [_ H1].
  pose proof (load_csv_headerless_schema InMemory.env InMemory.sample p
                (VStr "x:int") (∅ : kwargs_t) false
                eq_refl eq_refl ltac:(discriminate) ltac:(discriminate)
                (lookup_empty _)) as [H2 _].
  split; [|by apply H2].
  destruct (H1 [("x", "int"); ("y", "str")] eq_refl) as (options & -> & Hh & Hn).
  unfold pd_read_csv, InMemory.env, InMemory.read. rewrite Hh, Hn.
  vm_compute. reflexivity.
Defined.

(** ** Format inference from the file name *)












Lemma app_assoc_string (a b c : string) : (a +:+ b) +:+ c = a +:+ (b +:+ c).
Proof. induction a as [|d a IH]; [done|]. by rewrite !app_cons, IH. Qed.








